(** * Bookmark manager (Supabase edition): client state synchronisation

    A shallow embedding of [src/supabaseService.js] and of the event
    handlers of [src/bookmark-manager-supabase.jsx], followed by the
    properties of the mirror, the duplicate guard, the share-token issuer
    and the filter/search evaluator.

    Conventions of the embedding
    - JavaScript strings are [string].  [trim], [toLowerCase] and
      [toUpperCase] belong to the runtime and are an interface
      ([JS.Strings]); [JS.Standard] states what ECMAScript guarantees of
      them that the proofs use.
    - [null] / [undefined] fields are [option]s.
    - A promise that rejects (or a [throw]) is a [Rejected] outcome; handlers
      run in a small state-and-exception monad whose state survives a throw,
      as React state setters called before the throw do.
    - A handler reads the values captured by the render that created it
      (its snapshot) and writes through the state setters. *)

From Stdlib Require Import String Ascii List Bool Arith Lia.
From Stdlib Require Import DecimalString.
Import ListNotations.
Local Open Scope nat_scope.
Local Open Scope string_scope.
Local Open Scope list_scope.

Set Implicit Arguments.

(* ====================================================================== *)
(** ** ECMAScript string primitives used by the sources                    *)
(* ====================================================================== *)

Module JS.

(** [s.startsWith(p)] *)
Definition startsWith (s p : string) : bool := String.prefix p s.

(** [s.includes(q)]: [q] occurs in [s] as a contiguous substring. *)
Fixpoint includes (s q : string) : bool :=
  String.prefix q s ||
  match s with
  | EmptyString => false
  | String _ s' => includes s' q
  end.

Definition isUpper (c : ascii) : bool :=
  ((65 <=? nat_of_ascii c) && (nat_of_ascii c <=? 90))%nat.

Definition isLower (c : ascii) : bool :=
  ((97 <=? nat_of_ascii c) && (nat_of_ascii c <=? 122))%nat.

Definition isDigit (c : ascii) : bool :=
  ((48 <=? nat_of_ascii c) && (nat_of_ascii c <=? 57))%nat.

Definition isAlpha (c : ascii) : bool := isUpper c || isLower c.

Definition lowerChar (c : ascii) : ascii :=
  if isUpper c then ascii_of_nat (nat_of_ascii c + 32) else c.

Definition upperChar (c : ascii) : ascii :=
  if isLower c then ascii_of_nat (nat_of_ascii c - 32) else c.

Fixpoint mapChars (f : ascii -> ascii) (s : string) : string :=
  match s with
  | EmptyString => EmptyString
  | String c s' => String (f c) (mapChars f s')
  end.

(** The case mappings of text below U+0080: only the letters A-Z and a-z
    have one. *)
Definition asciiToLowerCase : string -> string := mapChars lowerChar.
Definition asciiToUpperCase : string -> string := mapChars upperChar.

(** WhiteSpace and LineTerminator code points below U+0080. *)
Definition isWhiteSpace (c : ascii) : bool :=
  let n := nat_of_ascii c in
  (((9 <=? n) && (n <=? 13)) || (n =? 32))%nat.

Fixpoint asciiTrimStart (s : string) : string :=
  match s with
  | EmptyString => EmptyString
  | String c s' => if isWhiteSpace c then asciiTrimStart s' else s
  end.

(** Drops the trailing white space: a character is kept when it is not
    white space or when something is kept after it. *)
Fixpoint asciiTrimEnd (s : string) : string :=
  match s with
  | EmptyString => EmptyString
  | String c s' =>
      match asciiTrimEnd s' with
      | EmptyString => if isWhiteSpace c then EmptyString else String c EmptyString
      | t => String c t
      end
  end.

(** Trimming of text below U+0080. *)
Definition asciiTrim (s : string) : string := asciiTrimEnd (asciiTrimStart s).

(** Every character of the string is below U+0080. *)
Fixpoint isAsciiText (s : string) : bool :=
  match s with
  | EmptyString => true
  | String c s' => (nat_of_ascii c <? 128)%nat && isAsciiText s'
  end.

(** Truthiness of a string value: only the empty string is falsy. *)
Definition truthy (s : string) : bool :=
  match s with EmptyString => false | _ => true end.

(** Truthiness of a nullable string: [null] and [""] are falsy. *)
Definition truthyOpt (o : option string) : bool :=
  match o with Some s => truthy s | None => false end.

(** [s.charAt(0)] and [s.slice(1)] *)
Definition charAt0 (s : string) : string :=
  match s with EmptyString => EmptyString | String c _ => String c EmptyString end.

Definition slice1 (s : string) : string :=
  match s with EmptyString => EmptyString | String _ s' => s' end.

(** [s.split(sep)[0]] for a one-character separator. *)
Fixpoint splitHead (sep : ascii) (s : string) : string :=
  match s with
  | EmptyString => EmptyString
  | String c s' => if Ascii.eqb c sep then EmptyString else String c (splitHead sep s')
  end.

Fixpoint dropChars (n : nat) (s : string) : string :=
  match n, s with
  | O, _ => s
  | S n', String _ s' => dropChars n' s'
  | S _, EmptyString => EmptyString
  end.

(** [s.replace(pat, "")] with a string pattern: the first occurrence only. *)
Fixpoint removeFirst (pat s : string) : string :=
  if String.prefix pat s then dropChars (String.length pat) s
  else match s with
       | EmptyString => EmptyString
       | String c s' => String c (removeFirst pat s')
       end.

(** [s.trim()], [s.toLowerCase()] and [s.toUpperCase()] are functions of
    the runtime, defined over all of Unicode: they are an interface. *)
Class Strings : Type := {
  trim : string -> string;
  toLowerCase : string -> string;
  toUpperCase : string -> string
}.

(** What the development relies on from ECMAScript.  On text below
    U+0080, [trim] strips the white space and line terminators of that
    range and [toLowerCase] maps A-Z to a-z.  Lower-casing never empties
    a string, and never turns a string that has a character other than
    white space into a blank one, nor the converse (white space has no
    case mapping). *)
Class Standard (T : Strings) : Prop := {
  trim_ascii : forall s, isAsciiText s = true -> trim s = asciiTrim s;
  toLowerCase_ascii :
    forall s, isAsciiText s = true -> toLowerCase s = asciiToLowerCase s;
  toLowerCase_nonempty : forall s, truthy (toLowerCase s) = truthy s;
  toLowerCase_blank : forall s, truthy (trim (toLowerCase s)) = truthy (trim s)
}.

(** An executable instance for evaluating examples on text below U+0080. *)
Definition reference : Strings :=
  {| trim := asciiTrim; toLowerCase := asciiToLowerCase;
     toUpperCase := asciiToUpperCase |}.

End JS.

(* ====================================================================== *)
(** ** The platform's URL constructor                                      *)
(* ====================================================================== *)

(** The fields of a [URL] object that the sources read. *)
Record URL : Type := mkURL {
  href : string;
  protocol : string;
  hostname : string
}.

(** [new URL(text)] belongs to the runtime, not to the repository: it is an
    interface here.  [None] stands for the [TypeError] it throws. *)
Class UrlPlatform : Type := { URL_new : string -> option URL }.

(** The scheme test of the URL Standard on an input without a base URL:
    an ASCII letter, then letters, digits, [+], [-] or [.], then [:].
    Leading C0-control-or-space characters are skipped first, as the
    parser does. *)
Module Scheme.

Definition isSchemeChar (c : ascii) : bool :=
  JS.isAlpha c || JS.isDigit c ||
  Ascii.eqb c "+" || Ascii.eqb c "-" || Ascii.eqb c ".".

Definition isC0OrSpace (c : ascii) : bool := (nat_of_ascii c <=? 32)%nat.

Definition isTabOrNewline (c : ascii) : bool :=
  let n := nat_of_ascii c in ((n =? 9) || (n =? 10) || (n =? 13))%nat.

Fixpoint skipC0 (l : list ascii) : list ascii :=
  match l with
  | c :: r => if isC0OrSpace c then skipC0 r else l
  | [] => []
  end.

(** The parser's input clean-up: strip leading and trailing
    C0-control-or-space, then delete every tab and newline. *)
Definition clean (s : string) : list ascii :=
  filter (fun c => negb (isTabOrNewline c))
         (rev (skipC0 (rev (skipC0 (list_ascii_of_string s))))).

(** Reads the scheme characters up to the colon; the scheme comes back
    lower-cased together with the rest of the input. *)
Fixpoint scan (l acc : list ascii) : option (list ascii * list ascii) :=
  match l with
  | [] => None
  | c :: r =>
      if Ascii.eqb c ":" then Some (rev acc, r)
      else if isSchemeChar c then scan r (JS.lowerChar c :: acc)
      else None
  end.

Definition split (l : list ascii) : option (list ascii * list ascii) :=
  match l with
  | c :: _ => if JS.isAlpha c then scan l [] else None
  | [] => None
  end.

Definition hasScheme (s : string) : bool :=
  match split (clean s) with Some _ => true | None => false end.

End Scheme.

(** What the development relies on from the URL Standard: without a base
    URL, an input in which no scheme is found is a failure. *)
Class UrlStandard (P : UrlPlatform) : Prop := {
  URL_new_no_scheme : forall s, Scheme.hasScheme s = false -> URL_new s = None
}.

(* ====================================================================== *)
(** ** supabaseService.js: utility functions                               *)
(* ====================================================================== *)

Section Utilities.
Context {T : JS.Strings} {P : UrlPlatform}.

(** [isValidUrl] *)
Definition isValidUrl (urlString : string) : bool :=
  match URL_new (if JS.startsWith urlString "http" then urlString
                 else "https://" ++ urlString) with
  | Some url => String.eqb (protocol url) "http:" || String.eqb (protocol url) "https:"
  | None => false
  end.

(** [normalizeUrl]; [None] is the [null] of the [catch] branch. *)
Definition normalizeUrl (urlString : string) : option string :=
  match URL_new (if JS.startsWith urlString "http" then urlString
                 else "https://" ++ urlString) with
  | Some url => Some (href url)
  | None => None
  end.

Record Metadata : Type := mkMetadata {
  md_title : string;
  md_description : string;
  md_thumbnail : string;
  md_domain : string
}.

(** [fetchUrlMetadata] (the promise it returns never rejects). *)
Definition fetchUrlMetadata (url : string) : Metadata :=
  match URL_new url with
  | Some urlObj =>
      let domain := JS.removeFirst "www." (hostname urlObj) in
      let label := JS.splitHead "." domain in
      {| md_title := JS.toUpperCase (JS.charAt0 label) ++ JS.slice1 label;
         md_description := "Visit " ++ domain ++ " for more information";
         md_thumbnail := "https://www.google.com/s2/favicons?domain=" ++ domain ++ "&sz=128";
         md_domain := domain |}
  | None =>
      {| md_title := "Untitled"; md_description := ""; md_thumbnail := "";
         md_domain := "" |}
  end.

End Utilities.

(* ====================================================================== *)
(** ** A reference URL constructor for evaluating examples                 *)
(* ====================================================================== *)

(** An executable instance of [UrlPlatform] that follows the URL Standard on
    a fragment of its inputs: a scheme, then for [http], [https], [ftp],
    [ws] and [wss] a plain ASCII host name (no credentials, port, address
    literal or Punycode label) and a path of unreserved characters without
    dot segments; for any other scheme an opaque path of unreserved
    characters.  On that fragment it returns what the Standard returns; an
    input with no scheme, with an empty host or with a space in its host
    fails as in the Standard; everything else outside the fragment is
    rejected too, so it is only ever applied to inputs of the fragment. *)
Module RefUrl.

Definition isSpecial (scheme : string) : bool :=
  String.eqb scheme "http" || String.eqb scheme "https" ||
  String.eqb scheme "ftp" || String.eqb scheme "ws" || String.eqb scheme "wss".

Definition isSlash (c : ascii) : bool := Ascii.eqb c "/" || Ascii.eqb c "\".

Fixpoint skipSlashes (l : list ascii) : list ascii :=
  match l with
  | c :: r => if isSlash c then skipSlashes r else l
  | [] => []
  end.

Definition endsAuthority (c : ascii) : bool :=
  isSlash c || Ascii.eqb c "?" || Ascii.eqb c "#".

(** The authority and what follows it. *)
Fixpoint splitAuthority (l : list ascii) : list ascii * list ascii :=
  match l with
  | [] => ([], [])
  | c :: r =>
      if endsAuthority c then ([], l)
      else let (a, rest) := splitAuthority r in (c :: a, rest)
  end.

Definition isLabelChar (c : ascii) : bool :=
  JS.isAlpha c || JS.isDigit c || Ascii.eqb c "-".

(** Labels of letters, digits and hyphens separated by single dots; the
    flag [start] is true at the beginning of a label, and [alpha] records
    whether the current label began with a letter (so the last label is
    not a number). *)
Fixpoint hostShape (l : list ascii) (start alpha : bool) : bool :=
  match l with
  | [] => negb start && alpha
  | c :: r =>
      if Ascii.eqb c "." then negb start && hostShape r true false
      else isLabelChar c && hostShape r false (if start then JS.isAlpha c else alpha)
  end.

Definition parseHost (a : list ascii) : option string :=
  let h := JS.asciiToLowerCase (string_of_list_ascii a) in
  if hostShape a true false && negb (JS.includes h "xn--") then Some h else None.

Definition isUnreserved (c : ascii) : bool :=
  JS.isAlpha c || JS.isDigit c ||
  Ascii.eqb c "-" || Ascii.eqb c "_" || Ascii.eqb c "~".

(** A reversed segment that is [.] or [..]. *)
Definition isDotSegment (seg : list ascii) : bool :=
  match seg with
  | ["."%char] => true
  | ["."%char; "."%char] => true
  | _ => false
  end.

(** A path of the fragment: segments of unreserved characters and dots,
    none of them a dot segment.  [seg] is the current segment, reversed. *)
Fixpoint pathShape (l seg : list ascii) : bool :=
  match l with
  | [] => negb (isDotSegment seg)
  | c :: r =>
      if Ascii.eqb c "/" then negb (isDotSegment seg) && pathShape r []
      else (isUnreserved c || Ascii.eqb c ".") && pathShape r (c :: seg)
  end.

Definition parsePath (rest : list ascii) : option string :=
  match rest with
  | [] => Some "/"
  | c :: r =>
      if Ascii.eqb c "/" && pathShape r [] then Some (string_of_list_ascii rest)
      else None
  end.

Definition parse (input : string) : option URL :=
  match Scheme.split (Scheme.clean input) with
  | None => None
  | Some (sch, rest) =>
      let scheme := string_of_list_ascii sch in
      if isSpecial scheme then
        let (auth, tail) := splitAuthority (skipSlashes rest) in
        match parseHost auth, parsePath tail with
        | Some host, Some path =>
            Some {| href := scheme ++ "://" ++ host ++ path;
                    protocol := scheme ++ ":";
                    hostname := host |}
        | _, _ => None
        end
      else if forallb (fun c => isUnreserved c || Ascii.eqb c ".") rest then
        Some {| href := scheme ++ ":" ++ string_of_list_ascii rest;
                protocol := scheme ++ ":";
                hostname := "" |}
      else None
  end.

#[export] Instance platform : UrlPlatform := {| URL_new := parse |}.

End RefUrl.

(* ====================================================================== *)
(** ** Data model: rows of [folders] and [bookmarks]                       *)
(* ====================================================================== *)

Module Folder.
Record t : Type := mk {
  id : string;
  user_id : string;
  name : string;
  is_default : bool;
  created_at : nat;
  updated_at : nat
}.

(** The object literal handed to [foldersService.create]. *)
Record insert : Type := mkInsert {
  new_user_id : string;
  new_name : string;
  new_is_default : bool
}.
End Folder.

Module Bookmark.
Record t : Type := mk {
  id : string;
  user_id : string;
  folder_id : option string;
  url : string;
  title : string;
  description : option string;
  thumbnail : option string;
  tags : option (list string);
  is_private : bool;
  share_id : option string;
  created_at : nat;
  updated_at : nat
}.

(** The object literal handed to [bookmarksService.create]; [new_url] is
    the value of [normalizeUrl], which may be [null]. *)
Record insert : Type := mkInsert {
  new_user_id : string;
  new_url : option string;
  new_title : string;
  new_description : string;
  new_thumbnail : string;
  new_tags : list string;
  new_folder_id : option string;
  new_is_private : bool
}.

(** A partial-field update: [None] is an absent key.  [set_folder_id]
    carries a nullable value, since [{ folder_id: null }] is sent. *)
Record updates : Type := mkUpdates {
  set_title : option string;
  set_description : option string;
  set_tags : option (list string);
  set_is_private : option bool;
  set_folder_id : option (option string);
  set_share_id : option string
}.

(** [{ ...b, folder_id: v }] and [{ ...b, share_id: v }] *)
Definition with_folder_id (b : t) (v : option string) : t :=
  mk (id b) (user_id b) v (url b) (title b) (description b) (thumbnail b)
     (tags b) (is_private b) (share_id b) (created_at b) (updated_at b).

Definition with_share_id (b : t) (v : option string) : t :=
  mk (id b) (user_id b) (folder_id b) (url b) (title b) (description b)
     (thumbnail b) (tags b) (is_private b) v (created_at b) (updated_at b).
End Bookmark.

(** [x === y] for a nullable string against a string. *)
Definition strictEqOpt (x : option string) (y : string) : bool :=
  match x with Some v => String.eqb v y | None => false end.

(* ====================================================================== *)
(** ** Outcomes, errors and the remote calls a handler can issue           *)
(* ====================================================================== *)

Record Error : Type := mkError { message : option string }.

Inductive Outcome (A : Type) : Type :=
| Resolved (a : A)
| Rejected (e : Error).
Arguments Resolved {A} a.
Arguments Rejected {A} e.

Inductive Call : Type :=
| FoldersGetAll (userId : string)
| FoldersCreate (folder : Folder.insert)
| FoldersDelete (id : string)
| BookmarksGetAll (userId : string)
| BookmarksCreate (bookmark : Bookmark.insert)
| BookmarksUpdate (id : string) (updates : Bookmark.updates)
| BookmarksCheckDuplicate (userId : string) (url : option string).

Definition isUpdateCall (c : Call) : bool :=
  match c with BookmarksUpdate _ _ => true | _ => false end.

Definition isCreateCall (c : Call) : bool :=
  match c with BookmarksCreate _ => true | _ => false end.

Definition isFoldersDeleteCall (c : Call) : bool :=
  match c with FoldersDelete _ => true | _ => false end.

(** What the handlers need from outside the repository, over an opaque
    environment state [R]: the Supabase queries of [supabaseService.js]
    (each answers with data or with an error), [window.confirm], and the
    value of [generateShareId], whose body ([Math.random], [Date.now]) is
    not a function of the program state. *)
Class Environment (R : Type) : Type := {
  q_folders_select : string -> R -> Outcome (list Folder.t) * R;
  q_folders_insert : Folder.insert -> R -> Outcome Folder.t * R;
  q_folders_delete : string -> R -> Outcome unit * R;
  q_bookmarks_select : string -> R -> Outcome (list Bookmark.t) * R;
  q_bookmarks_insert : Bookmark.insert -> R -> Outcome Bookmark.t * R;
  q_bookmarks_update : string -> Bookmark.updates -> R -> Outcome Bookmark.t * R;
  q_bookmarks_find_id : string -> option string -> R -> Outcome (option string) * R;
  window_confirm : string -> R -> bool * R;
  generateShareId : R -> string * R
}.

(* ====================================================================== *)
(** ** React state of [BookmarkManager] and the handler monad              *)
(* ====================================================================== *)

Record App : Type := mkApp {
  currentUser : option string;   (* the [id] of the user object, or null *)
  bookmarks : list Bookmark.t;
  folders : list Folder.t;
  selectedFolder : string;
  filterQuery : string;
  showAddModal : bool;
  shareModal : option Bookmark.t;
  loading : bool;
  urlInput : string;
  urlError : string;
  isLoadingMetadata : bool
}.

(** [useState] initial values. *)
Definition initialApp : App :=
  {| currentUser := None; bookmarks := []; folders := []; selectedFolder := "all";
     filterQuery := ""; showAddModal := false; shareModal := None; loading := true;
     urlInput := ""; urlError := ""; isLoadingMetadata := false |}.

Record Machine (R : Type) : Type := mkMachine {
  ui : App;
  remote : R;
  calls : list Call;        (* remote calls issued, oldest first *)
  alerts : list string;     (* [alert] messages, oldest first *)
  console : list string     (* [console.error] labels, oldest first *)
}.

Definition M (R A : Type) : Type := Machine R -> Outcome A * Machine R.

Section Monad.
Context {R : Type}.

Definition ret {A} (a : A) : M R A := fun m => (Resolved a, m).

Definition bind {A B} (c : M R A) (k : A -> M R B) : M R B :=
  fun m => match c m with
           | (Resolved a, m') => k a m'
           | (Rejected e, m') => (Rejected e, m')
           end.

Definition throw {A} (e : Error) : M R A := fun m => (Rejected e, m).

(** [try { body } catch (error) { handler }] *)
Definition try_catch {A} (body : M R A) (handler : Error -> M R A) : M R A :=
  fun m => match body m with
           | (Resolved a, m') => (Resolved a, m')
           | (Rejected e, m') => handler e m'
           end.

(** [... finally { final }] *)
Definition try_finally {A} (body : M R A) (final : M R unit) : M R A :=
  fun m => match body m with
           | (r, m') => match final m' with
                        | (Resolved _, m'') => (r, m'')
                        | (Rejected e, m'') => (Rejected e, m'')
                        end
           end.

(** [for (const x of xs) { await f(x) }] *)
Fixpoint forEach {A} (xs : list A) (f : A -> M R unit) : M R unit :=
  match xs with
  | [] => ret tt
  | x :: rest => bind (f x) (fun _ => forEach rest f)
  end.

Definition modifyUi (f : App -> App) : M R unit :=
  fun m => (Resolved tt,
            mkMachine (f (ui m)) (remote m) (calls m) (alerts m) (console m)).

Definition alert (msg : string) : M R unit :=
  fun m => (Resolved tt,
            mkMachine (ui m) (remote m) (calls m) (alerts m ++ [msg]) (console m)).

Definition console_error (label : string) : M R unit :=
  fun m => (Resolved tt,
            mkMachine (ui m) (remote m) (calls m) (alerts m) (console m ++ [label])).

(** Issues one remote call: it is logged, and the environment answers. *)
Definition request {A} (c : Call) (q : R -> Outcome A * R) : M R A :=
  fun m => let (r, env') := q (remote m) in
           (r, mkMachine (ui m) env' (calls m ++ [c]) (alerts m) (console m)).

(** A step of the environment that is not a remote call. *)
Definition ask {A} (q : R -> A * R) : M R A :=
  fun m => let (a, env') := q (remote m) in
           (Resolved a, mkMachine (ui m) env' (calls m) (alerts m) (console m)).

End Monad.

Declare Scope handler_scope.
Delimit Scope handler_scope with handler.
Notation "x <- c ;; k" := (bind c (fun x => k))
  (at level 61, c at next level, right associativity) : handler_scope.
Notation "c ;; k" := (bind c (fun _ => k))
  (at level 61, right associativity) : handler_scope.
Local Open Scope handler_scope.

(** State setters. *)
Section Setters.
Context {R : Type}.

Definition setBookmarks (v : list Bookmark.t) : M R unit :=
  modifyUi (fun a => mkApp (currentUser a) v (folders a) (selectedFolder a)
    (filterQuery a) (showAddModal a) (shareModal a) (loading a) (urlInput a)
    (urlError a) (isLoadingMetadata a)).

Definition setFolders (v : list Folder.t) : M R unit :=
  modifyUi (fun a => mkApp (currentUser a) (bookmarks a) v (selectedFolder a)
    (filterQuery a) (showAddModal a) (shareModal a) (loading a) (urlInput a)
    (urlError a) (isLoadingMetadata a)).

Definition setSelectedFolder (v : string) : M R unit :=
  modifyUi (fun a => mkApp (currentUser a) (bookmarks a) (folders a) v
    (filterQuery a) (showAddModal a) (shareModal a) (loading a) (urlInput a)
    (urlError a) (isLoadingMetadata a)).

Definition setShowAddModal (v : bool) : M R unit :=
  modifyUi (fun a => mkApp (currentUser a) (bookmarks a) (folders a)
    (selectedFolder a) (filterQuery a) v (shareModal a) (loading a) (urlInput a)
    (urlError a) (isLoadingMetadata a)).

Definition setShareModal (v : option Bookmark.t) : M R unit :=
  modifyUi (fun a => mkApp (currentUser a) (bookmarks a) (folders a)
    (selectedFolder a) (filterQuery a) (showAddModal a) v (loading a) (urlInput a)
    (urlError a) (isLoadingMetadata a)).

Definition setLoading (v : bool) : M R unit :=
  modifyUi (fun a => mkApp (currentUser a) (bookmarks a) (folders a)
    (selectedFolder a) (filterQuery a) (showAddModal a) (shareModal a) v
    (urlInput a) (urlError a) (isLoadingMetadata a)).

Definition setUrlInput (v : string) : M R unit :=
  modifyUi (fun a => mkApp (currentUser a) (bookmarks a) (folders a)
    (selectedFolder a) (filterQuery a) (showAddModal a) (shareModal a)
    (loading a) v (urlError a) (isLoadingMetadata a)).

Definition setUrlError (v : string) : M R unit :=
  modifyUi (fun a => mkApp (currentUser a) (bookmarks a) (folders a)
    (selectedFolder a) (filterQuery a) (showAddModal a) (shareModal a)
    (loading a) (urlInput a) v (isLoadingMetadata a)).

Definition setIsLoadingMetadata (v : bool) : M R unit :=
  modifyUi (fun a => mkApp (currentUser a) (bookmarks a) (folders a)
    (selectedFolder a) (filterQuery a) (showAddModal a) (shareModal a)
    (loading a) (urlInput a) (urlError a) v).

End Setters.

(* ====================================================================== *)
(** ** supabaseService.js: the service layer                               *)
(* ====================================================================== *)

Section Services.
Context {R : Type} {E : Environment R}.

(** Each service function awaits one query and rethrows its error. *)
Definition foldersService_getAll (userId : string) : M R (list Folder.t) :=
  request (FoldersGetAll userId) (q_folders_select userId).

Definition foldersService_create (folder : Folder.insert) : M R Folder.t :=
  request (FoldersCreate folder) (q_folders_insert folder).

Definition foldersService_delete (id : string) : M R unit :=
  request (FoldersDelete id) (q_folders_delete id).

Definition bookmarksService_getAll (userId : string) : M R (list Bookmark.t) :=
  request (BookmarksGetAll userId) (q_bookmarks_select userId).

Definition bookmarksService_create (bookmark : Bookmark.insert) : M R Bookmark.t :=
  request (BookmarksCreate bookmark) (q_bookmarks_insert bookmark).

Definition bookmarksService_update (id : string) (updates : Bookmark.updates)
  : M R Bookmark.t :=
  request (BookmarksUpdate id updates) (q_bookmarks_update id updates).

(** [checkDuplicate] returns [!!data]. *)
Definition bookmarksService_checkDuplicate (userId : string) (url : option string)
  : M R bool :=
  data <- request (BookmarksCheckDuplicate userId url)
                  (q_bookmarks_find_id userId url) ;;
  ret (match data with Some _ => true | None => false end).

End Services.

(* ====================================================================== *)
(** ** bookmark-manager-supabase.jsx: handlers                             *)
(* ====================================================================== *)

(** The [TypeError] of reading [.id] on a null [currentUser]. *)
Definition nullUserError : Error :=
  {| message := Some "Cannot read properties of null (reading 'id')" |}.

(** [error.message?.includes(q)] as a condition. *)
Definition messageIncludes (e : Error) (q : string) : bool :=
  match message e with Some msg => JS.includes msg q | None => false end.

(** String conversion of a nullable string argument. *)
Definition toStringOpt (o : option string) : string :=
  match o with Some s => s | None => "null" end.

(** One double-quote character. *)
Definition dquote : string := String (ascii_of_nat 34) EmptyString.

(** The question [handleDeleteFolder] asks. *)
Definition confirmDeleteFolder : string :=
  "Delete this folder? Bookmarks will be moved to " ++ dquote ++ "unsorted"
  ++ dquote ++ ".".

Section Handlers.
Context {T : JS.Strings} {P : UrlPlatform} {R : Type} {E : Environment R}.

(** Every handler takes the snapshot [snap] of the render that created
    it: the values of [bookmarks], [folders], ... it closes over. *)

Definition currentUser_id (snap : App) : M R string :=
  match currentUser snap with
  | Some userId => ret userId
  | None => throw nullUserError
  end.

(** [loadUserData] *)
Definition loadUserData (userId : string) : M R unit :=
  try_finally
    (try_catch
       (setLoading true ;;
        foldersData <- foldersService_getAll userId ;;
        (if Nat.eqb (List.length foldersData) 0 then
           defaultFolder <- foldersService_create
             {| Folder.new_user_id := userId;
                Folder.new_name := "All Bookmarks";
                Folder.new_is_default := true |} ;;
           setFolders [defaultFolder]
         else setFolders foldersData) ;;
        bookmarksData <- bookmarksService_getAll userId ;;
        setBookmarks bookmarksData)
       (fun error =>
          console_error "Error loading data:" ;;
          alert "Error loading your data. Please refresh the page."))
    (setLoading false).

(** [handleAddBookmark]; the boolean of the first [try] tells whether the
    handler returned from inside it. *)
Definition handleAddBookmark (snap : App) : M R unit :=
  setUrlError "" ;;
  if negb (JS.truthy (JS.trim (urlInput snap))) then
    setUrlError "Please enter a URL"
  else if negb (isValidUrl (urlInput snap)) then
    setUrlError "Please enter a valid URL (must start with http:// or https://)"
  else
    let normalizedUrl := normalizeUrl (urlInput snap) in
    returned <- try_catch
      (userId <- currentUser_id snap ;;
       isDuplicate <- bookmarksService_checkDuplicate userId normalizedUrl ;;
       if isDuplicate : bool then
         (setUrlError "This bookmark already exists" ;; ret true)
       else ret false)
      (fun error => console_error "Duplicate check error:" ;; ret false) ;;
    if returned : bool then ret tt
    else
      setIsLoadingMetadata true ;;
      try_finally
        (try_catch
           (let metadata := fetchUrlMetadata (toStringOpt normalizedUrl) in
            userId <- currentUser_id snap ;;
            newBookmark <- bookmarksService_create
              {| Bookmark.new_user_id := userId;
                 Bookmark.new_url := normalizedUrl;
                 Bookmark.new_title := md_title metadata;
                 Bookmark.new_description := md_description metadata;
                 Bookmark.new_thumbnail := md_thumbnail metadata;
                 Bookmark.new_tags := [];
                 Bookmark.new_folder_id :=
                   if String.eqb (selectedFolder snap) "all" then None
                   else Some (selectedFolder snap);
                 Bookmark.new_is_private := false |} ;;
            setBookmarks (newBookmark :: bookmarks snap) ;;
            setUrlInput "" ;;
            setShowAddModal false)
           (fun error =>
              console_error "Add bookmark error:" ;;
              if messageIncludes error "duplicate" then
                setUrlError "This bookmark already exists"
              else setUrlError "Failed to add bookmark. Please try again."))
        (setIsLoadingMetadata false).

(** [handleUpdateBookmark] *)
Definition handleUpdateBookmark (snap : App) (bookmarkId : string)
    (updates : Bookmark.updates) : M R unit :=
  try_catch
    (updatedBookmark <- bookmarksService_update bookmarkId updates ;;
     setBookmarks
       (map (fun b => if String.eqb (Bookmark.id b) bookmarkId
                      then updatedBookmark else b)
            (bookmarks snap)))
    (fun error => console_error "Update error:" ;; alert "Failed to update bookmark").

(** [handleShareBookmark] *)
Definition handleShareBookmark (snap : App) (bookmark : Bookmark.t) : M R unit :=
  if negb (JS.truthyOpt (Bookmark.share_id bookmark)) then
    shareId <- ask generateShareId ;;
    handleUpdateBookmark snap (Bookmark.id bookmark)
      {| Bookmark.set_title := None; Bookmark.set_description := None;
         Bookmark.set_tags := None; Bookmark.set_is_private := None;
         Bookmark.set_folder_id := None; Bookmark.set_share_id := Some shareId |} ;;
    setShareModal (Some (Bookmark.with_share_id bookmark (Some shareId)))
  else setShareModal (Some bookmark).

(** [{ folder_id: null }] *)
Definition unfile : Bookmark.updates :=
  {| Bookmark.set_title := None; Bookmark.set_description := None;
     Bookmark.set_tags := None; Bookmark.set_is_private := None;
     Bookmark.set_folder_id := Some None; Bookmark.set_share_id := None |}.

(** [handleDeleteFolder] *)
Definition handleDeleteFolder (snap : App) (folderId : string) : M R unit :=
  let folder := find (fun f => String.eqb (Folder.id f) folderId) (folders snap) in
  if match folder with Some f => Folder.is_default f | None => false end then ret tt
  else
    confirmed <- ask (window_confirm confirmDeleteFolder) ;;
    if negb confirmed then ret tt
    else
      try_catch
        (let bookmarksInFolder :=
           filter (fun b => strictEqOpt (Bookmark.folder_id b) folderId)
                  (bookmarks snap) in
         forEach bookmarksInFolder
           (fun bookmark =>
              bookmarksService_update (Bookmark.id bookmark) unfile ;; ret tt) ;;
         foldersService_delete folderId ;;
         setFolders
           (filter (fun f => negb (String.eqb (Folder.id f) folderId)) (folders snap)) ;;
         setBookmarks
           (map (fun b => if strictEqOpt (Bookmark.folder_id b) folderId
                          then Bookmark.with_folder_id b None else b)
                (bookmarks snap)) ;;
         if String.eqb (selectedFolder snap) folderId then setSelectedFolder "all"
         else ret tt)
        (fun error => console_error "Delete folder error:" ;;
                      alert "Failed to delete folder").

(** A UI event runs a handler of the current render. *)
Definition dispatch {A} (handler : App -> M R A) : M R A :=
  fun m => handler (ui m) m.

End Handlers.

(** [filteredBookmarks]: the [useMemo] body as a function of its dependency
    list [bookmarks, selectedFolder, filterQuery, folders]. *)
Definition filteredBookmarks {T : JS.Strings} (bookmarks : list Bookmark.t)
    (selectedFolder : string) (filterQuery : string) (folders : list Folder.t)
  : list Bookmark.t :=
  let filtered := bookmarks in
  let selectedFolderObj :=
    find (fun f => String.eqb (Folder.id f) selectedFolder) folders in
  let isAllBookmarksFolder :=
    match selectedFolderObj with Some f => Folder.is_default f | None => false end
    || String.eqb selectedFolder "all" in
  let filtered :=
    if negb isAllBookmarksFolder then
      filter (fun b => strictEqOpt (Bookmark.folder_id b) selectedFolder) filtered
    else filtered in
  let filtered :=
    if JS.truthy (JS.trim filterQuery) then
      let query := JS.toLowerCase filterQuery in
      filter (fun b =>
                JS.includes (JS.toLowerCase (Bookmark.title b)) query ||
                match Bookmark.description b with
                | Some d => JS.includes (JS.toLowerCase d) query
                | None => false
                end ||
                JS.includes (JS.toLowerCase (Bookmark.url b)) query ||
                match Bookmark.tags b with
                | Some ts => existsb (fun tag => JS.includes (JS.toLowerCase tag) query) ts
                | None => false
                end)
             filtered
    else filtered in
  filtered.

(* ====================================================================== *)
(** ** A reference environment built from supabase-schema.sql              *)
(* ====================================================================== *)

(** An executable [Environment]: the two tables with the constraints the
    schema declares ([UNIQUE(user_id, url)], [share_id TEXT UNIQUE],
    [folder_id ... ON DELETE SET NULL], the [updated_at] trigger), plus a
    script of transport faults, of [confirm] answers and of share tokens.
    It serves to run the handlers on concrete scenarios. *)
Module Pg.

Record Db : Type := mk {
  folders_tbl : list Folder.t;       (* in creation order *)
  bookmarks_tbl : list Bookmark.t;   (* in creation order *)
  clock : nat;
  faults : list (option Error);      (* one entry per coming query *)
  confirms : list bool;
  tokens : list string
}.

Definition uuid (n : nat) : string :=
  "id-" ++ NilEmpty.string_of_uint (Nat.to_uint n).

Definition uniqueViolation (constraint : string) : Error :=
  {| message := Some ("duplicate key value violates unique constraint "
                      ++ dquote ++ constraint ++ dquote)%string |}.

Definition noSingleRow : Error :=
  {| message := Some "JSON object requested, multiple (or no) rows returned" |}.

Definition notNullViolation : Error :=
  {| message := Some "null value in column violates not-null constraint" |}.

Definition foreignKeyViolation : Error :=
  {| message := Some "insert or update on table violates foreign key constraint" |}.

Definition networkError : Error := {| message := Some "Failed to fetch" |}.

(** The transport: the next entry of the script decides whether the
    query reaches the database. *)
Definition transport {A} (op : Db -> Outcome A * Db) (d : Db) : Outcome A * Db :=
  match faults d with
  | Some e :: rest =>
      (Rejected e, mk (folders_tbl d) (bookmarks_tbl d) (clock d) rest
                      (confirms d) (tokens d))
  | None :: rest =>
      op (mk (folders_tbl d) (bookmarks_tbl d) (clock d) rest (confirms d) (tokens d))
  | [] => op d
  end.

Definition folders_select (userId : string) : Db -> Outcome (list Folder.t) * Db :=
  transport (fun d =>
    (Resolved (filter (fun f => String.eqb (Folder.user_id f) userId) (folders_tbl d)), d)).

Definition folders_insert (f : Folder.insert) : Db -> Outcome Folder.t * Db :=
  transport (fun d =>
    let row := Folder.mk (uuid (clock d)) (Folder.new_user_id f) (Folder.new_name f)
                         (Folder.new_is_default f) (clock d) (clock d) in
    (Resolved row,
     mk (folders_tbl d ++ [row]) (bookmarks_tbl d) (S (clock d)) (faults d)
        (confirms d) (tokens d))).

Definition folders_delete (id : string) : Db -> Outcome unit * Db :=
  transport (fun d =>
    (Resolved tt,
     mk (filter (fun f => negb (String.eqb (Folder.id f) id)) (folders_tbl d))
        (map (fun b => if strictEqOpt (Bookmark.folder_id b) id
                       then Bookmark.with_folder_id b None else b)
             (bookmarks_tbl d))
        (clock d) (faults d) (confirms d) (tokens d))).

(** [order('created_at', { ascending: false })] *)
Definition bookmarks_select (userId : string) : Db -> Outcome (list Bookmark.t) * Db :=
  transport (fun d =>
    (Resolved (rev (filter (fun b => String.eqb (Bookmark.user_id b) userId)
                           (bookmarks_tbl d))), d)).

Definition bookmarks_insert (b : Bookmark.insert) : Db -> Outcome Bookmark.t * Db :=
  transport (fun d =>
    match Bookmark.new_url b with
    | None => (Rejected notNullViolation, d)
    | Some u =>
        if existsb (fun r => String.eqb (Bookmark.user_id r) (Bookmark.new_user_id b)
                             && String.eqb (Bookmark.url r) u)
                   (bookmarks_tbl d)
        then (Rejected (uniqueViolation "bookmarks_user_id_url_key"), d)
        else
          let row := Bookmark.mk (uuid (clock d)) (Bookmark.new_user_id b)
                       (Bookmark.new_folder_id b) u (Bookmark.new_title b)
                       (Some (Bookmark.new_description b))
                       (Some (Bookmark.new_thumbnail b))
                       (Some (Bookmark.new_tags b)) (Bookmark.new_is_private b)
                       None (clock d) (clock d) in
          (Resolved row,
           mk (folders_tbl d) (bookmarks_tbl d ++ [row]) (S (clock d)) (faults d)
              (confirms d) (tokens d))
    end).

Definition orElse {A} (o : option A) (a : A) : A :=
  match o with Some v => v | None => a end.

(** The row after [UPDATE ... SET] and the [updated_at] trigger. *)
Definition applyUpdates (now : nat) (u : Bookmark.updates) (r : Bookmark.t) : Bookmark.t :=
  Bookmark.mk (Bookmark.id r) (Bookmark.user_id r)
    (orElse (Bookmark.set_folder_id u) (Bookmark.folder_id r))
    (Bookmark.url r)
    (orElse (Bookmark.set_title u) (Bookmark.title r))
    (match Bookmark.set_description u with
     | Some v => Some v | None => Bookmark.description r end)
    (Bookmark.thumbnail r)
    (match Bookmark.set_tags u with Some v => Some v | None => Bookmark.tags r end)
    (orElse (Bookmark.set_is_private u) (Bookmark.is_private r))
    (match Bookmark.set_share_id u with
     | Some v => Some v | None => Bookmark.share_id r end)
    (Bookmark.created_at r) now.

Definition violatesShareKey (id : string) (u : Bookmark.updates) (d : Db) : bool :=
  match Bookmark.set_share_id u with
  | Some tok =>
      existsb (fun r => negb (String.eqb (Bookmark.id r) id)
                        && strictEqOpt (Bookmark.share_id r) tok)
              (bookmarks_tbl d)
  | None => false
  end.

Definition violatesFolderKey (u : Bookmark.updates) (d : Db) : bool :=
  match Bookmark.set_folder_id u with
  | Some (Some fid) =>
      negb (existsb (fun f => String.eqb (Folder.id f) fid) (folders_tbl d))
  | _ => false
  end.

(** [update(updates).eq('id', id).select().single()] *)
Definition bookmarks_update (id : string) (u : Bookmark.updates)
  : Db -> Outcome Bookmark.t * Db :=
  transport (fun d =>
    match filter (fun r => String.eqb (Bookmark.id r) id) (bookmarks_tbl d) with
    | [r] =>
        if violatesShareKey id u d then
          (Rejected (uniqueViolation "bookmarks_share_id_key"), d)
        else if violatesFolderKey u d then (Rejected foreignKeyViolation, d)
        else
          let r' := applyUpdates (clock d) u r in
          (Resolved r',
           mk (folders_tbl d)
              (map (fun x => if String.eqb (Bookmark.id x) id then r' else x)
                   (bookmarks_tbl d))
              (S (clock d)) (faults d) (confirms d) (tokens d))
    | _ => (Rejected noSingleRow, d)
    end).

(** [select('id').eq('user_id', userId).eq('url', url).maybeSingle()] *)
Definition bookmarks_find_id (userId : string) (url : option string)
  : Db -> Outcome (option string) * Db :=
  transport (fun d =>
    match filter (fun r => String.eqb (Bookmark.user_id r) userId
                           && match url with
                              | Some u => String.eqb (Bookmark.url r) u
                              | None => false
                              end)
                 (bookmarks_tbl d) with
    | [] => (Resolved None, d)
    | [r] => (Resolved (Some (Bookmark.id r)), d)
    | _ => (Rejected noSingleRow, d)
    end).

Definition confirm (_ : string) (d : Db) : bool * Db :=
  match confirms d with
  | answer :: rest =>
      (answer, mk (folders_tbl d) (bookmarks_tbl d) (clock d) (faults d) rest (tokens d))
  | [] => (true, d)
  end.

Definition nextToken (d : Db) : string * Db :=
  match tokens d with
  | tok :: rest =>
      (tok, mk (folders_tbl d) (bookmarks_tbl d) (clock d) (faults d) (confirms d) rest)
  | [] =>
      (("tok-" ++ uuid (clock d))%string,
       mk (folders_tbl d) (bookmarks_tbl d) (S (clock d)) (faults d) (confirms d) [])
  end.

#[export] Instance environment : Environment Db := {|
  q_folders_select := folders_select;
  q_folders_insert := folders_insert;
  q_folders_delete := folders_delete;
  q_bookmarks_select := bookmarks_select;
  q_bookmarks_insert := bookmarks_insert;
  q_bookmarks_update := bookmarks_update;
  q_bookmarks_find_id := bookmarks_find_id;
  window_confirm := confirm;
  generateShareId := nextToken
|}.

End Pg.

(* ====================================================================== *)
(** ** Specification-side definitions                                      *)
(* ====================================================================== *)

(** [normalize] as the specification words it (4.2): trim, add [https://]
    when no scheme is present, parse as an absolute URL, fail with
    [InvalidUrl] ([None]) if parsing fails or the scheme is not [http] or
    [https], else return the serialised URL. *)
Definition normalize_spec {T : JS.Strings} {P : UrlPlatform} (rawUrlText : string)
  : option string :=
  let text := JS.trim rawUrlText in
  match URL_new (if Scheme.hasScheme text then text else "https://" ++ text) with
  | Some url =>
      if String.eqb (protocol url) "http:" || String.eqb (protocol url) "https:"
      then Some (href url)
      else None
  | None => None
  end.

(** The selected folder is the "all" sentinel or the default folder. *)
Definition isAllView (folders : list Folder.t) (selectedFolder : string) : bool :=
  match find (fun f => String.eqb (Folder.id f) selectedFolder) folders with
  | Some f => Folder.is_default f
  | None => false
  end || String.eqb selectedFolder "all".

(** The lowercase query occurs in the lowercase title, description (if
    present), URL, or in some lowercase tag. *)
Definition matchesQuery {T : JS.Strings} (query : string) (b : Bookmark.t) : bool :=
  JS.includes (JS.toLowerCase (Bookmark.title b)) query ||
  match Bookmark.description b with
  | Some d => JS.includes (JS.toLowerCase d) query
  | None => false
  end ||
  JS.includes (JS.toLowerCase (Bookmark.url b)) query ||
  match Bookmark.tags b with
  | Some ts => existsb (fun tag => JS.includes (JS.toLowerCase tag) query) ts
  | None => false
  end.

(** The evaluator's rule for one bookmark: rule 1 (folder) and rules 2-3
    (text) of the specification. *)
Definition keeps {T : JS.Strings} (folders : list Folder.t)
    (selectedFolder filterQuery : string) (b : Bookmark.t) : bool :=
  (if isAllView folders selectedFolder then true
   else strictEqOpt (Bookmark.folder_id b) selectedFolder)
  &&
  (if JS.truthy (JS.trim filterQuery) then matchesQuery (JS.toLowerCase filterQuery) b
   else true).

(** The object literal [handleAddBookmark] submits. *)
Definition submittedBookmark {T : JS.Strings} {P : UrlPlatform} (snap : App)
    (userId : string) (normalizedUrl : option string) : Bookmark.insert :=
  let metadata := fetchUrlMetadata (toStringOpt normalizedUrl) in
  {| Bookmark.new_user_id := userId;
     Bookmark.new_url := normalizedUrl;
     Bookmark.new_title := md_title metadata;
     Bookmark.new_description := md_description metadata;
     Bookmark.new_thumbnail := md_thumbnail metadata;
     Bookmark.new_tags := [];
     Bookmark.new_folder_id :=
       if String.eqb (selectedFolder snap) "all" then None
       else Some (selectedFolder snap);
     Bookmark.new_is_private := false |}.

(** [{ share_id: token }] *)
Definition shareUpdate (token : string) : Bookmark.updates :=
  {| Bookmark.set_title := None; Bookmark.set_description := None;
     Bookmark.set_tags := None; Bookmark.set_is_private := None;
     Bookmark.set_folder_id := None; Bookmark.set_share_id := Some token |}.

(** The token of the share link on display: [shareModal.share_id], when
    the share modal is open. *)
Definition shownToken (a : App) : option string :=
  match shareModal a with
  | Some b => Bookmark.share_id b
  | None => None
  end.

(** The React state with the share modal opened on [x]. *)
Definition withShareModal (a : App) (x : option Bookmark.t) : App :=
  mkApp (currentUser a) (bookmarks a) (folders a) (selectedFolder a) (filterQuery a)
        (showAddModal a) x (loading a) (urlInput a) (urlError a) (isLoadingMetadata a).

Definition countUpdates (cs : list Call) : nat := List.length (filter isUpdateCall cs).

Section Sessions.
Context {P : UrlPlatform} {R : Type} {E : Environment R}.

(** The card of a bookmark is rendered from the mirror, keyed by id: a
    later click hands the handler the mirror's current entry. *)
Definition mirrorEntry (a : App) (b : Bookmark.t) : Bookmark.t :=
  match find (fun x => String.eqb (Bookmark.id x) (Bookmark.id b)) (bookmarks a) with
  | Some x => x
  | None => b
  end.

Definition share (b : Bookmark.t) : M R (option string) :=
  dispatch (fun snap => handleShareBookmark snap (mirrorEntry snap b)) ;;
  (fun m => (Resolved (shownToken (ui m)), m)).

(** Two share clicks on the same bookmark; the tokens shown by each. *)
Definition shareTwice (b : Bookmark.t) : M R (option string * option string) :=
  first <- share b ;;
  second <- share b ;;
  ret (first, second).

(** The part of [loadUserData] that obtains the folders: what the
    environment answers to the folder fetch and, for an owner without
    folders, to the creation of the default folder. *)
Definition folderStep (userId : string) (r : R) : Outcome (list Folder.t) * R :=
  match q_folders_select userId r with
  | (Resolved [], r1) =>
      match q_folders_insert {| Folder.new_user_id := userId;
                                Folder.new_name := "All Bookmarks";
                                Folder.new_is_default := true |} r1 with
      | (Resolved d, r2) => (Resolved [d], r2)
      | (Rejected e, r2) => (Rejected e, r2)
      end
  | (Resolved fs, r1) => (Resolved fs, r1)
  | (Rejected e, r1) => (Rejected e, r1)
  end.

End Sessions.

Definition loadErrorMessage : string :=
  "Error loading your data. Please refresh the page.".

Definition duplicateMessage : string := "This bookmark already exists".

(* ====================================================================== *)
(** ** Concrete scenarios                                                  *)
(* ====================================================================== *)

Module Scenario.

Definition owner : string := "user-1".

Definition allBookmarks : Folder.t := Folder.mk "f-1" owner "All Bookmarks" true 0 0.
Definition work : Folder.t := Folder.mk "f-2" owner "Work" false 1 1.

Definition github : Bookmark.t :=
  Bookmark.mk "b-1" owner (Some "f-2") "https://github.com/" "GitHub"
              (Some "Where code lives") None (Some ["dev"]) false None 2 2.

Definition example : Bookmark.t :=
  Bookmark.mk "b-2" owner None "https://example.com/" "Example"
              None None (Some []) false None 3 3.

(** A bookmark that has been shared before. *)
Definition shared : Bookmark.t :=
  Bookmark.mk "b-3" owner (Some "f-2") "https://rocq-prover.org/" "Rocq"
              None None (Some ["proofs"]) false (Some "k3x9w1") 4 4.

Definition db (faults : list (option Error)) : Pg.Db :=
  Pg.mk [allBookmarks; work] [github; example; shared] 5 faults [] ["tokA"; "tokB"].

(** The signed-in application after a load, with [urlInput] typed in. *)
Definition app (urlInput : string) : App :=
  {| currentUser := Some owner; bookmarks := [shared; example; github];
     folders := [allBookmarks; work]; selectedFolder := "all"; filterQuery := "";
     showAddModal := true; shareModal := None; loading := false;
     urlInput := urlInput; urlError := ""; isLoadingMetadata := false |}.

Definition machine (a : App) (faults : list (option Error)) : Machine Pg.Db :=
  mkMachine a (db faults) [] [] [].

End Scenario.

(* ====================================================================== *)
(** ** bookmark-manager-supabase.jsx: tag suggestions and the card         *)
(* ====================================================================== *)

(** [allTags.add(tag)]: a [Set] keeps insertion order and ignores a value
    it already holds. *)
Definition addToSet (allTags : list string) (tag : string) : list string :=
  if existsb (String.eqb tag) allTags then allTags else allTags ++ [tag].

(** The two nested [forEach] of [getTagSuggestions]; [bookmark.tags?.]
    skips a bookmark whose tags are null. *)
Definition collectTags (bookmarks : list Bookmark.t) : list string :=
  fold_left (fun allTags bookmark =>
               match Bookmark.tags bookmark with
               | Some ts => fold_left addToSet ts allTags
               | None => allTags
               end)
            bookmarks [].

(** The [TypeError] of calling [.includes], [.filter] on null. *)
Definition nullArrayError : Error :=
  {| message := Some "Cannot read properties of null" |}.

(** [getTagSuggestions(bookmarks, currentTags)].  The argument is a row's
    [tags] column: an array, or null ([None]), for which the default
    parameter does not apply; the filter callback then throws at the first
    collected tag.  A throw is a [Rejected] outcome. *)
Definition getTagSuggestions (bookmarks : list Bookmark.t)
    (currentTags : option (list string)) : Outcome (list string) :=
  match currentTags with
  | Some current =>
      Resolved (filter (fun tag => negb (existsb (String.eqb tag) current))
                       (collectTags bookmarks))
  | None =>
      match collectTags bookmarks with
      | [] => Resolved []
      | _ :: _ => Rejected nullArrayError
      end
  end.

(** Local state of a [BookmarkCard]. *)
Record Card : Type := mkCard {
  isEditing : bool;
  editTitle : string;
  editDescription : string;
  showTagInput : bool;
  tagInput : string;
  tagSuggestions : list string
}.

(** [useState] initial values of a card. *)
Definition initialCard (bookmark : Bookmark.t) : Card :=
  {| isEditing := false;
     editTitle := Bookmark.title bookmark;
     editDescription :=
       match Bookmark.description bookmark with
       | Some d => if JS.truthy d then d else ""
       | None => ""
       end;
     showTagInput := false; tagInput := ""; tagSuggestions := [] |}.

(** [{ tags: v }] and [{ is_private: v }] and [{ folder_id: v }] *)
Definition tagsUpdate (v : list string) : Bookmark.updates :=
  {| Bookmark.set_title := None; Bookmark.set_description := None;
     Bookmark.set_tags := Some v; Bookmark.set_is_private := None;
     Bookmark.set_folder_id := None; Bookmark.set_share_id := None |}.

Definition privacyUpdate (v : bool) : Bookmark.updates :=
  {| Bookmark.set_title := None; Bookmark.set_description := None;
     Bookmark.set_tags := None; Bookmark.set_is_private := Some v;
     Bookmark.set_folder_id := None; Bookmark.set_share_id := None |}.

Definition folderUpdate (v : string) : Bookmark.updates :=
  {| Bookmark.set_title := None; Bookmark.set_description := None;
     Bookmark.set_tags := None; Bookmark.set_is_private := None;
     Bookmark.set_folder_id := Some (Some v); Bookmark.set_share_id := None |}.

(** Further queries of [supabaseService.js], beside those of
    [Environment]: [bookmarksService.delete], [authService.signOut] and
    [authService.getCurrentUser] (the user is its id, or null).  The call
    log of the machine records the queries of [Environment] only. *)
Class SessionEnvironment (R : Type) : Type := {
  q_bookmarks_delete : string -> R -> Outcome unit * R;
  auth_signOut : R -> Outcome unit * R;
  auth_getUser : R -> Outcome (option string) * R
}.

(** State of [BookmarkManager] outside [App]: the folder form and the
    bookmark being dragged.  A handler that writes it takes its value in
    the render and returns its value after the handler's setters. *)
Record FolderForm : Type := mkFolderForm {
  folderNameInput : string;
  showFolderModal : bool
}.

(** The [TypeError] of reading a property of [undefined]. *)
Definition undefinedError : Error :=
  {| message := Some "Cannot read properties of undefined" |}.

Section MoreHandlers.
Context {T : JS.Strings} {R : Type} {E : Environment R} {S : SessionEnvironment R}.

(** Awaits a query of [SessionEnvironment]. *)
Definition query {A} (q : R -> Outcome A * R) : M R A :=
  fun m => let (r, env') := q (remote m) in
           (r, mkMachine (ui m) env' (calls m) (alerts m) (console m)).

Definition bookmarksService_delete (id : string) : M R unit :=
  query (q_bookmarks_delete id).

Definition authService_signOut : M R unit := query auth_signOut.

Definition authService_getCurrentUser : M R (option string) := query auth_getUser.

Definition setCurrentUser (v : option string) : M R unit :=
  modifyUi (fun a => mkApp v (bookmarks a) (folders a) (selectedFolder a)
    (filterQuery a) (showAddModal a) (shareModal a) (loading a) (urlInput a)
    (urlError a) (isLoadingMetadata a)).

(** [checkSession] *)
Definition checkSession : M R unit :=
  try_finally
    (try_catch
       (user <- authService_getCurrentUser ;;
        match user with
        | Some userId => setCurrentUser (Some userId) ;; loadUserData userId
        | None => ret tt
        end)
       (fun error => console_error "Session check error:"))
    (setLoading false).

(** [handleLogout] *)
Definition handleLogout : M R unit :=
  try_catch
    (authService_signOut ;;
     setCurrentUser None ;;
     setBookmarks [] ;;
     setFolders [] ;;
     setSelectedFolder "all")
    (fun error => console_error "Logout error:").

(** [handleDeleteBookmark] *)
Definition handleDeleteBookmark (snap : App) (bookmarkId : string) : M R unit :=
  confirmed <- ask (window_confirm "Are you sure you want to delete this bookmark?") ;;
  if negb confirmed then ret tt
  else
    try_catch
      (bookmarksService_delete bookmarkId ;;
       setBookmarks
         (filter (fun b => negb (String.eqb (Bookmark.id b) bookmarkId))
                 (bookmarks snap)))
      (fun error => console_error "Delete error:" ;; alert "Failed to delete bookmark").

(** [handleTogglePrivacy]; [find] gives [undefined] for an id that is not
    in the mirror, and reading [.is_private] of it throws. *)
Definition handleTogglePrivacy (snap : App) (bookmarkId : string) : M R unit :=
  match find (fun b => String.eqb (Bookmark.id b) bookmarkId) (bookmarks snap) with
  | Some bookmark =>
      handleUpdateBookmark snap bookmarkId
        (privacyUpdate (negb (Bookmark.is_private bookmark)))
  | None => throw undefinedError
  end.

(** [handleAddFolder] *)
Definition handleAddFolder (snap : App) (form : FolderForm) : M R FolderForm :=
  if negb (JS.truthy (JS.trim (folderNameInput form))) then ret form
  else
    try_catch
      (userId <- currentUser_id snap ;;
       newFolder <- foldersService_create
         {| Folder.new_user_id := userId;
            Folder.new_name := folderNameInput form;
            Folder.new_is_default := false |} ;;
       setFolders (folders snap ++ [newFolder]) ;;
       ret {| folderNameInput := ""; showFolderModal := false |})
      (fun error => console_error "Add folder error:" ;;
                    alert "Failed to create folder" ;;
                    ret form).

(** [handleDragStart] sets the dragged bookmark. *)
Definition handleDragStart (bookmark : Bookmark.t) : option Bookmark.t := Some bookmark.

(** [handleDropOnFolder]; the result is [draggedBookmark] afterwards. *)
Definition handleDropOnFolder (snap : App) (draggedBookmark : option Bookmark.t)
    (folderId : string) : M R (option Bookmark.t) :=
  match draggedBookmark with
  | Some dragged =>
      if negb (strictEqOpt (Bookmark.folder_id dragged) folderId) then
        handleUpdateBookmark snap (Bookmark.id dragged) (folderUpdate folderId)
      else ret tt
  | None => ret tt
  end ;;
  ret None.

(** [BookmarkCard]: [handleSaveEdit].  [onUpdate] is the
    [handleUpdateBookmark] of the parent's render. *)
Definition handleSaveEdit (snap : App) (bookmark : Bookmark.t) (card : Card) : M R Card :=
  handleUpdateBookmark snap (Bookmark.id bookmark)
    {| Bookmark.set_title := Some (editTitle card);
       Bookmark.set_description := Some (editDescription card);
       Bookmark.set_tags := None; Bookmark.set_is_private := None;
       Bookmark.set_folder_id := None; Bookmark.set_share_id := None |} ;;
  ret (mkCard false (editTitle card) (editDescription card) (showTagInput card)
              (tagInput card) (tagSuggestions card)).

(** [bookmark.tags?.includes(tag)] as a condition. *)
Definition hasTag (bookmark : Bookmark.t) (tag : string) : bool :=
  match Bookmark.tags bookmark with
  | Some ts => existsb (String.eqb tag) ts
  | None => false
  end.

(** [BookmarkCard]: [handleAddTag] *)
Definition handleAddTag (snap : App) (bookmark : Bookmark.t) (card : Card)
    (tag : string) : M R Card :=
  (if JS.truthy tag && negb (hasTag bookmark tag) then
     handleUpdateBookmark snap (Bookmark.id bookmark)
       (tagsUpdate (match Bookmark.tags bookmark with
                    | Some ts => ts
                    | None => []
                    end ++ [tag]))
   else ret tt) ;;
  ret (mkCard (isEditing card) (editTitle card) (editDescription card) false "" []).

(** [BookmarkCard]: [handleRemoveTag]; [bookmark.tags.filter] throws on
    null tags. *)
Definition handleRemoveTag (snap : App) (bookmark : Bookmark.t) (tag : string)
  : M R unit :=
  match Bookmark.tags bookmark with
  | Some ts =>
      handleUpdateBookmark snap (Bookmark.id bookmark)
        (tagsUpdate (filter (fun t => negb (String.eqb t tag)) ts))
  | None => throw nullArrayError
  end.

End MoreHandlers.

(** [BookmarkCard]: [handleTagInputChange]; [allTags] is the prop computed
    by [getTagSuggestions]. *)
Definition handleTagInputChange {T : JS.Strings} (allTags : list string) (card : Card)
    (value : string) : Card :=
  mkCard (isEditing card) (editTitle card) (editDescription card) (showTagInput card)
         value
         (if JS.truthy value then
            filter (fun tag => JS.includes (JS.toLowerCase tag) (JS.toLowerCase value))
                   allTags
          else []).

(** Two privacy clicks on the same bookmark. *)
Definition toggleTwice {R : Type} {E : Environment R} (bookmarkId : string) : M R unit :=
  dispatch (fun snap => handleTogglePrivacy snap bookmarkId) ;;
  dispatch (fun snap => handleTogglePrivacy snap bookmarkId).

(** The session queries on the reference environment: deleting a row, and
    an authentication service holding the session [session]. *)
Module PgSession.

Definition bookmarks_delete (id : string) : Pg.Db -> Outcome unit * Pg.Db :=
  Pg.transport (fun d =>
    (Resolved tt,
     Pg.mk (Pg.folders_tbl d)
           (filter (fun b => negb (String.eqb (Bookmark.id b) id)) (Pg.bookmarks_tbl d))
           (Pg.clock d) (Pg.faults d) (Pg.confirms d) (Pg.tokens d))).

Definition signOut : Pg.Db -> Outcome unit * Pg.Db :=
  Pg.transport (fun d => (Resolved tt, d)).

Definition getUser (session : option string) : Pg.Db -> Outcome (option string) * Pg.Db :=
  Pg.transport (fun d => (Resolved session, d)).

Definition environment (session : option string) : SessionEnvironment Pg.Db :=
  {| q_bookmarks_delete := bookmarks_delete;
     auth_signOut := signOut;
     auth_getUser := getUser session |}.

End PgSession.

(** ** Notions used to state the further properties *)

(** A tag is in use when some bookmark of the list carries it. *)
Definition tagInUse (bookmarks : list Bookmark.t) (t : string) : Prop :=
  exists b ts, In b bookmarks /\ Bookmark.tags b = Some ts /\ In t ts.

(** The machine after the confirmation dialog. *)
Definition answered {R : Type} (m : Machine R) (r1 : R) : Machine R :=
  mkMachine (ui m) r1 (calls m) (alerts m) (console m).

(** The loop of [handleDeleteFolder] over the bookmarks of the folder. *)
Definition unfileLoop {R : Type} {E : Environment R} (snap : App) (folderId : string)
  : M R unit :=
  forEach (filter (fun b => strictEqOpt (Bookmark.folder_id b) folderId) (bookmarks snap))
          (fun bookmark => bookmarksService_update (Bookmark.id bookmark) unfile ;; ret tt).

(** Some character of the string is not white space. *)
Fixpoint inked (s : string) : bool :=
  match s with
  | EmptyString => false
  | String c s' => negb (JS.isWhiteSpace c) || inked s'
  end.

(* ====================================================================== *)
(** ** Proof automation for handler runs                                  *)
(* ====================================================================== *)

(** Unfolds the monad, so that a handler becomes a case analysis on the
    answers of the environment. *)
Ltac unfold_monad :=
  unfold try_catch, try_finally, bind, ret, throw, request, ask, alert,
    console_error, setBookmarks, setFolders, setSelectedFolder, setShowAddModal,
    setShareModal, setLoading, setUrlInput, setUrlError, setIsLoadingMetadata,
    modifyUi in *.

Ltac unfold_services :=
  unfold bookmarksService_update, bookmarksService_create,
    bookmarksService_getAll, bookmarksService_checkDuplicate,
    foldersService_getAll, foldersService_create, foldersService_delete in *.

(* ====================================================================== *)
(** * Properties                                                           *)
(* ====================================================================== *)

(** ** URL validation and normalisation *)

Lemma startsWith_https (s : string) : JS.startsWith ("https://" ++ s) "http" = true.
Proof. reflexivity. Qed.

Lemma isValidUrl_normalizeUrl {P : UrlPlatform} (s : string) :
  isValidUrl s = true -> exists u, normalizeUrl s = Some u.
Proof.
  unfold isValidUrl, normalizeUrl.
  destruct (URL_new _) as [url|]; [eauto | discriminate].
Qed.

(** The reference constructor fails when no scheme is found, as the URL
    Standard prescribes. *)
#[export] Instance RefUrl_standard : UrlStandard RefUrl.platform.
Proof.
  constructor. intros s Hs. unfold Scheme.hasScheme in Hs.
  simpl. unfold RefUrl.parse.
  destruct (Scheme.split (Scheme.clean s)); [discriminate | reflexivity].
Qed.

(** ** The reference string built-ins meet the standard *)

Lemma asciiTrimEnd_truthy (s : string) : JS.truthy (JS.asciiTrimEnd s) = inked s.
Proof.
  induction s as [|c s IH]; [reflexivity|]. simpl.
  destruct (JS.asciiTrimEnd s) as [|c' t].
  - simpl in IH. rewrite <- IH, orb_false_r. destruct (JS.isWhiteSpace c); reflexivity.
  - simpl in IH. rewrite <- IH, orb_true_r. reflexivity.
Qed.

Lemma asciiTrimStart_inked (s : string) : inked (JS.asciiTrimStart s) = inked s.
Proof.
  induction s as [|c s IH]; [reflexivity|]. simpl.
  destruct (JS.isWhiteSpace c) eqn:Hc; simpl; rewrite ?Hc; [exact IH | reflexivity].
Qed.

Lemma asciiTrim_truthy (s : string) : JS.truthy (JS.asciiTrim s) = inked s.
Proof. unfold JS.asciiTrim. now rewrite asciiTrimEnd_truthy, asciiTrimStart_inked. Qed.

Lemma lowerChar_isWhiteSpace (c : ascii) :
  JS.isWhiteSpace (JS.lowerChar c) = JS.isWhiteSpace c.
Proof.
  destruct c as [[] [] [] [] [] [] [] []]; reflexivity.
Qed.

Lemma asciiToLowerCase_inked (s : string) : inked (JS.asciiToLowerCase s) = inked s.
Proof.
  induction s as [|c s IH]; [reflexivity|].
  simpl. rewrite lowerChar_isWhiteSpace. f_equal. exact IH.
Qed.

(** The reference instance is ECMAScript's [trim] and [toLowerCase] on
    text below U+0080, and has the two properties of lower-casing. *)
#[export] Instance reference_standard : JS.Standard JS.reference.
Proof.
  constructor; intros s; simpl.
  - reflexivity.
  - reflexivity.
  - destruct s; reflexivity.
  - now rewrite !asciiTrim_truthy, asciiToLowerCase_inked.
Qed.

(** C3, as stated, fails: the input is not trimmed before the prefix is
    added, so a leading space ends up inside the host and the URL
    constructor throws, where trimming first would have given
    [https://example.com/]. *)
Lemma normalizeUrl_does_not_trim :
  @normalizeUrl RefUrl.platform " example.com" = None /\
  @normalize_spec JS.reference RefUrl.platform " example.com" = Some "https://example.com/".
Proof. split; reflexivity. Qed.

(** C3 (amended): [normalizeUrl] does not trim, and adds [https://]
    exactly when the input does not begin with the characters [http].  So
    an input that does not begin with [http] and the same input with
    [https://] in front normalise identically.  On an input that trimming
    leaves unchanged and on which the prefix test and the scheme test
    agree, the specification's [normalize] returns what [normalizeUrl]
    returns when [isValidUrl] accepts the input, and fails when
    [isValidUrl] rejects it: [normalizeUrl] itself never looks at the
    scheme of the parsed URL. *)
Theorem normalizeUrl_scheme_default (T : JS.Strings) (P : UrlPlatform) (s : string) :
  (JS.startsWith s "http" = false -> normalizeUrl s = normalizeUrl ("https://" ++ s))
  /\ (JS.trim s = s -> JS.startsWith s "http" = Scheme.hasScheme s ->
      normalize_spec s = if isValidUrl s then normalizeUrl s else None).
Proof.
  split.
  - intros Hs. unfold normalizeUrl. rewrite Hs, startsWith_https. reflexivity.
  - intros Htrim Hagree. unfold normalizeUrl, normalize_spec, isValidUrl.
    cbv zeta. rewrite Htrim, Hagree.
    destruct (URL_new _) as [url|]; [|reflexivity].
    destruct (String.eqb (protocol url) "http:" || String.eqb (protocol url) "https:");
      reflexivity.
Qed.

Lemma normalizeUrl_scheme_default_witness :
  @normalizeUrl RefUrl.platform "example.com"
  = @normalizeUrl RefUrl.platform "https://example.com"
  /\ (@normalize_spec JS.reference RefUrl.platform "example.com"
      = Some "https://example.com/"
      /\ @normalizeUrl RefUrl.platform "example.com" = Some "https://example.com/")
  /\ (@normalize_spec JS.reference RefUrl.platform "httpx:foo" = None
      /\ @normalizeUrl RefUrl.platform "httpx:foo" = Some "httpx:foo").
Proof.
  destruct (normalizeUrl_scheme_default JS.reference RefUrl.platform "example.com")
    as (Hprefix & Hspec).
  destruct (normalizeUrl_scheme_default JS.reference RefUrl.platform "httpx:foo")
    as (_ & Hscheme).
  split; [exact (Hprefix eq_refl) | split; split].
  - exact (Hspec eq_refl eq_refl).
  - reflexivity.
  - exact (Hscheme eq_refl eq_refl).
  - reflexivity.
Defined.

(** C10: the scheme test is the literal prefix [http].  An input in which
    the URL Standard finds no scheme but which begins with [http] is given
    to the constructor without the [https://] prefix, so [isValidUrl] is
    false and [normalizeUrl] is null; an input that does not begin with
    [http] is accepted whenever the constructor makes an [https:] URL of
    it once prefixed. *)
Theorem http_prefix_test_rejects_schemeless (P : UrlPlatform) (S : UrlStandard P)
    (s : string) :
  JS.startsWith s "http" = true ->
  Scheme.hasScheme s = false ->
  (if JS.startsWith s "http" then s else ("https://" ++ s)%string) = s
  /\ isValidUrl s = false
  /\ normalizeUrl s = None
  /\ forall host url,
       JS.startsWith host "http" = false ->
       URL_new ("https://" ++ host)%string = Some url ->
       protocol url = "https:" ->
       isValidUrl host = true /\ normalizeUrl host = Some (href url).
Proof.
  intros Hprefix Hscheme.
  pose proof (URL_new_no_scheme s Hscheme) as Hfail.
  unfold isValidUrl, normalizeUrl. rewrite Hprefix, Hfail.
  split; [reflexivity | split; [reflexivity | split; [reflexivity |]]].
  intros host url Hhost Hurl Hprotocol.
  rewrite Hhost, Hurl, Hprotocol. split; reflexivity.
Qed.

Lemma http_prefix_test_rejects_schemeless_witness :
  (@isValidUrl RefUrl.platform "httpbin.org" = false
   /\ @normalizeUrl RefUrl.platform "httpbin.org" = None)
  /\ (@isValidUrl RefUrl.platform "http.example.com" = false
      /\ @normalizeUrl RefUrl.platform "http.example.com" = None)
  /\ (@isValidUrl RefUrl.platform "bin.org" = true
      /\ @normalizeUrl RefUrl.platform "bin.org" = Some "https://bin.org/").
Proof.
  destruct (http_prefix_test_rejects_schemeless RefUrl_standard "httpbin.org"
              eq_refl eq_refl) as (_ & Hv & Hn & Hother).
  destruct (http_prefix_test_rejects_schemeless RefUrl_standard "http.example.com"
              eq_refl eq_refl) as (_ & Hv' & Hn' & _).
  split; [exact (conj Hv Hn) | split; [exact (conj Hv' Hn') |]].
  exact (Hother "bin.org" (mkURL "https://bin.org/" "https:" "bin.org")
                eq_refl eq_refl eq_refl).
Defined.


(** ** Facts about the handlers *)

Section HandlerFacts.
Context {P : UrlPlatform} {R : Type} {E : Environment R}.

(** A rejected update is caught by [handleUpdateBookmark]: the handler
    resolves, having logged, alerted, and left the React state alone. *)
Lemma handleUpdateBookmark_rejected (snap : App) (m : Machine R)
    (bookmarkId : string) (updates : Bookmark.updates) (e : Error) (r' : R) :
  q_bookmarks_update bookmarkId updates (remote m) = (Rejected e, r') ->
  handleUpdateBookmark snap bookmarkId updates m
  = (Resolved tt,
     mkMachine (ui m) r' (calls m ++ [BookmarksUpdate bookmarkId updates])
               (alerts m ++ ["Failed to update bookmark"])
               (console m ++ ["Update error:"])).
Proof.
  intros Hq. unfold handleUpdateBookmark. unfold_services. unfold_monad.
  rewrite Hq. reflexivity.
Qed.

(** An accepted update replaces, in the snapshot's list, every entry with
    that id by the row the store returned. *)
Lemma handleUpdateBookmark_resolved (snap : App) (m : Machine R)
    (bookmarkId : string) (updates : Bookmark.updates) (row : Bookmark.t) (r' : R) :
  q_bookmarks_update bookmarkId updates (remote m) = (Resolved row, r') ->
  handleUpdateBookmark snap bookmarkId updates m
  = (Resolved tt,
     mkMachine
       (mkApp (currentUser (ui m))
              (map (fun b => if String.eqb (Bookmark.id b) bookmarkId then row else b)
                   (bookmarks snap))
              (folders (ui m)) (selectedFolder (ui m)) (filterQuery (ui m))
              (showAddModal (ui m)) (shareModal (ui m)) (loading (ui m))
              (urlInput (ui m)) (urlError (ui m)) (isLoadingMetadata (ui m)))
       r' (calls m ++ [BookmarksUpdate bookmarkId updates]) (alerts m) (console m)).
Proof.
  intros Hq. unfold handleUpdateBookmark. unfold_services. unfold_monad.
  rewrite Hq. reflexivity.
Qed.

(** The loop of [handleDeleteFolder] over the bookmarks of the folder only
    talks to the store. *)
Lemma forEach_update_frame (xs : list Bookmark.t) (u : Bookmark.updates) :
  forall (m m' : Machine R) (o : Outcome unit),
    forEach xs (fun bookmark => bookmarksService_update (Bookmark.id bookmark) u ;; ret tt) m
    = (o, m') ->
    ui m' = ui m /\ alerts m' = alerts m /\ console m' = console m.
Proof.
  induction xs as [|x xs IH]; intros m m' o Hrun.
  - inversion Hrun; subst. auto.
  - simpl in Hrun. unfold_services. unfold_monad.
    destruct (q_bookmarks_update (Bookmark.id x) u (remote m)) as [[row|e] r1] eqn:Hq.
    + apply IH in Hrun. simpl in Hrun. exact Hrun.
    + inversion Hrun; subst. auto.
Qed.

End HandlerFacts.

(** ** Lists keyed by id *)

Lemma find_folder_by_id (fs : list Folder.t) (f : Folder.t) :
  NoDup (map Folder.id fs) -> In f fs ->
  find (fun g => String.eqb (Folder.id g) (Folder.id f)) fs = Some f.
Proof.
  induction fs as [|g fs IH]; intros Hnd Hin; [contradiction|].
  simpl in *. inversion Hnd as [|? ? Hnotin Hnd']; subst.
  destruct Hin as [->|Hin].
  - now rewrite String.eqb_refl.
  - destruct (String.eqb_spec (Folder.id g) (Folder.id f)) as [Heq|_].
    + exfalso. apply Hnotin. rewrite Heq. now apply in_map.
    + auto.
Qed.

Lemma find_bookmark_by_id (bs : list Bookmark.t) (b : Bookmark.t) :
  NoDup (map Bookmark.id bs) -> In b bs ->
  find (fun x => String.eqb (Bookmark.id x) (Bookmark.id b)) bs = Some b.
Proof.
  induction bs as [|x bs IH]; intros Hnd Hin; [contradiction|].
  simpl in *. inversion Hnd as [|? ? Hnotin Hnd']; subst.
  destruct Hin as [->|Hin].
  - now rewrite String.eqb_refl.
  - destruct (String.eqb_spec (Bookmark.id x) (Bookmark.id b)) as [Heq|_].
    + exfalso. apply Hnotin. rewrite Heq. now apply in_map.
    + auto.
Qed.

Lemma nth_error_map_some {A B} (f : A -> B) (l : list A) (i : nat) (a : A) :
  nth_error l i = Some a -> nth_error (map f l) i = Some (f a).
Proof.
  revert i; induction l as [|x l IH]; intros [|i] H; simpl in *;
    try discriminate; [now inversion H | auto].
Qed.

(** ** Updates: a failed call leaves the mirror alone *)

(** C9: when the store rejects the update, whatever the error,
    [handleUpdateBookmark] leaves the whole React state, and so every
    bookmark and folder of the mirror, exactly as it was; the handler
    alerts the user and issues no other call. *)
Theorem failed_update_leaves_mirror_unchanged (R : Type)
    (E : Environment R) (snap : App) (m : Machine R) (bookmarkId : string)
    (updates : Bookmark.updates) (e : Error) (r' : R) :
  q_bookmarks_update bookmarkId updates (remote m) = (Rejected e, r') ->
  let m' := snd (handleUpdateBookmark snap bookmarkId updates m) in
  ui m' = ui m
  /\ bookmarks (ui m') = bookmarks (ui m)
  /\ alerts m' = alerts m ++ ["Failed to update bookmark"]
  /\ calls m' = calls m ++ [BookmarksUpdate bookmarkId updates].
Proof.
  intros Hq. cbv zeta. rewrite (handleUpdateBookmark_rejected snap m _ _ Hq).
  simpl. auto.
Qed.

Lemma failed_update_leaves_mirror_unchanged_witness :
  let a := Scenario.app "" in
  let u := Bookmark.mkUpdates (Some "Hub") (Some "edited") None None None None in
  let m' := snd (@handleUpdateBookmark Pg.Db Pg.environment a "b-1" u
                   (Scenario.machine a [Some (Pg.uniqueViolation "bookmarks_share_id_key")])) in
  ui m' = a /\ bookmarks (ui m') = bookmarks a
  /\ alerts m' = ["Failed to update bookmark"]
  /\ calls m' = [BookmarksUpdate "b-1" u].
Proof.
  exact (@failed_update_leaves_mirror_unchanged Pg.Db Pg.environment
           (Scenario.app "")
           (Scenario.machine (Scenario.app "")
              [Some (Pg.uniqueViolation "bookmarks_share_id_key")])
           "b-1" (Bookmark.mkUpdates (Some "Hub") (Some "edited") None None None None)
           _ _ eq_refl).
Defined.

(** ** Sharing: the persist call fails *)

Section ShareFacts.
Context {R : Type} {E : Environment R}.

(** Whatever the store answers to the persist call, a first share opens
    the modal on the generated token: [handleUpdateBookmark] has already
    caught the rejection when [handleShareBookmark] goes on. *)
Lemma handleShareBookmark_modal_after_rejection (snap : App) (m : Machine R)
    (bookmark : Bookmark.t) (token : string) (e : Error) (r1 r2 : R) :
  JS.truthyOpt (Bookmark.share_id bookmark) = false ->
  generateShareId (remote m) = (token, r1) ->
  q_bookmarks_update (Bookmark.id bookmark) (shareUpdate token) r1 = (Rejected e, r2) ->
  let m' := snd (handleShareBookmark snap bookmark m) in
  shareModal (ui m') = Some (Bookmark.with_share_id bookmark (Some token))
  /\ bookmarks (ui m') = bookmarks (ui m)
  /\ alerts m' = alerts m ++ ["Failed to update bookmark"].
Proof.
  intros Hunset Hgen Hq. cbv zeta. unfold handleShareBookmark.
  rewrite Hunset. cbn [negb]. unfold bind, ask. rewrite Hgen. cbv beta iota.
  change {| Bookmark.set_title := None; Bookmark.set_description := None;
            Bookmark.set_tags := None; Bookmark.set_is_private := None;
            Bookmark.set_folder_id := None; Bookmark.set_share_id := Some token |}
    with (shareUpdate token).
  rewrite (@handleUpdateBookmark_rejected R E snap
             (mkMachine (ui m) r1 (calls m) (alerts m) (console m))
             (Bookmark.id bookmark) (shareUpdate token) e r2 Hq).
  unfold_monad. simpl. auto.
Qed.

End ShareFacts.

(** C1, evaluated where it fails: the bookmark [github] has no share id and
    the network is down for the persist call.  The mirror and the store
    keep the bookmark without a share id and the user is told the update
    failed, but the share modal opens on a link with the unsaved token
    [tokA]. *)
Lemma share_link_shown_although_persist_failed :
  let a := Scenario.app "" in
  let m' := snd (@handleShareBookmark Pg.Db Pg.environment a Scenario.github
                   (Scenario.machine a [Some Pg.networkError])) in
  shownToken (ui m') = Some "tokA"
  /\ bookmarks (ui m') = bookmarks a
  /\ Pg.bookmarks_tbl (remote m') = [Scenario.github; Scenario.example; Scenario.shared]
  /\ alerts m' = ["Failed to update bookmark"].
Proof. repeat split. Qed.

(** ** Folders *)

(** C8: deleting a default folder of the mirror is refused at once: the
    handler returns with the machine untouched, so no remote call (in
    particular no folder delete) has been issued and the mirror has not
    changed. *)
Theorem default_folder_delete_is_rejected (R : Type) (E : Environment R)
    (snap : App) (f : Folder.t) (m : Machine R) :
  In f (folders snap) ->
  NoDup (map Folder.id (folders snap)) ->
  Folder.is_default f = true ->
  handleDeleteFolder snap (Folder.id f) m = (Resolved tt, m)
  /\ filter isFoldersDeleteCall (calls (snd (handleDeleteFolder snap (Folder.id f) m)))
     = filter isFoldersDeleteCall (calls m).
Proof.
  intros Hin Hnd Hdefault.
  assert (Hrun : handleDeleteFolder snap (Folder.id f) m = (Resolved tt, m)).
  { unfold handleDeleteFolder. rewrite (find_folder_by_id _ _ Hnd Hin), Hdefault.
    reflexivity. }
  rewrite Hrun. auto.
Qed.

Lemma scenario_folder_ids_distinct :
  NoDup (map Folder.id (folders (Scenario.app ""))).
Proof.
  simpl. repeat constructor; simpl; intuition discriminate.
Qed.

Lemma default_folder_delete_is_rejected_witness :
  let a := Scenario.app "" in
  @handleDeleteFolder Pg.Db Pg.environment a "f-1" (Scenario.machine a [])
  = (Resolved tt, Scenario.machine a []).
Proof.
  exact (proj1 (@default_folder_delete_is_rejected Pg.Db Pg.environment
                  (Scenario.app "") Scenario.allBookmarks
                  (Scenario.machine (Scenario.app "") [])
                  (or_introl eq_refl) scenario_folder_ids_distinct eq_refl)).
Defined.

(** C5: a confirmed delete of a non-default folder whose remote calls all
    succeed removes the folder from the mirror and rewrites [folder_id]
    to null on exactly the bookmarks that referenced it, position by
    position: no bookmark is lost and none still references the folder. *)
Theorem folder_delete_unfiles_bookmarks (R : Type) (E : Environment R)
    (m : Machine R) (f : Folder.t) (r1 r3 : R) (m2 : Machine R) :
  In f (folders (ui m)) ->
  NoDup (map Folder.id (folders (ui m))) ->
  Folder.is_default f = false ->
  window_confirm confirmDeleteFolder (remote m) = (true, r1) ->
  forEach (filter (fun b => strictEqOpt (Bookmark.folder_id b) (Folder.id f))
                  (bookmarks (ui m)))
          (fun bookmark => bookmarksService_update (Bookmark.id bookmark) unfile ;; ret tt)
          (mkMachine (ui m) r1 (calls m) (alerts m) (console m))
  = (Resolved tt, m2) ->
  q_folders_delete (Folder.id f) (remote m2) = (Resolved tt, r3) ->
  let m' := snd (dispatch (fun snap => handleDeleteFolder snap (Folder.id f)) m) in
  (forall g, In g (folders (ui m')) -> Folder.id g <> Folder.id f)
  /\ ~ In f (folders (ui m'))
  /\ List.length (bookmarks (ui m')) = List.length (bookmarks (ui m))
  /\ (forall i b, nth_error (bookmarks (ui m)) i = Some b ->
        nth_error (bookmarks (ui m')) i
        = Some (if strictEqOpt (Bookmark.folder_id b) (Folder.id f)
                then Bookmark.with_folder_id b None else b))
  /\ (forall b, In b (bookmarks (ui m')) ->
        strictEqOpt (Bookmark.folder_id b) (Folder.id f) = false)
  /\ calls m' = calls m2 ++ [FoldersDelete (Folder.id f)]
  /\ alerts m' = alerts m.
Proof.
  intros Hin Hnd Hdefault Hconfirm Hloop Hdelete. cbv zeta.
  destruct (forEach_update_frame _ _ _ Hloop) as (Hui & Halerts & Hconsole).
  simpl in Hui, Halerts, Hconsole.
  assert (Hrun : exists a' r' c' k',
             snd (dispatch (fun snap => handleDeleteFolder snap (Folder.id f)) m)
             = mkMachine a' r' c' (alerts m) k'
             /\ folders a' = filter (fun g => negb (String.eqb (Folder.id g) (Folder.id f)))
                                    (folders (ui m))
             /\ bookmarks a' = map (fun b => if strictEqOpt (Bookmark.folder_id b) (Folder.id f)
                                             then Bookmark.with_folder_id b None else b)
                                   (bookmarks (ui m))
             /\ c' = calls m2 ++ [FoldersDelete (Folder.id f)]).
  { unfold dispatch, handleDeleteFolder.
    rewrite (find_folder_by_id _ _ Hnd Hin), Hdefault.
    unfold bind at 1. unfold ask at 1. rewrite Hconfirm. cbn [negb].
    unfold try_catch. unfold bind at 1. rewrite Hloop.
    unfold_services. unfold_monad. rewrite Hdelete. rewrite Hui, Halerts.
    destruct (String.eqb (selectedFolder (ui m)) (Folder.id f));
      simpl; do 4 eexists; (split; [reflexivity | simpl; auto]). }
  destruct Hrun as (a' & r' & c' & k' & -> & Hfolders & Hbookmarks & ->).
  simpl. rewrite Hfolders, Hbookmarks.
  split; [| split; [| split; [| split; [| split; [| split]]]]].
  - intros g Hg. apply filter_In in Hg. destruct Hg as [_ Hg].
    destruct (String.eqb_spec (Folder.id g) (Folder.id f)); [discriminate | assumption].
  - intros Hf. apply filter_In in Hf. destruct Hf as [_ Hf].
    rewrite String.eqb_refl in Hf. discriminate.
  - apply length_map.
  - intros i b Hi. exact (nth_error_map_some _ _ _ Hi).
  - intros b Hb. apply in_map_iff in Hb. destruct Hb as (b0 & <- & _).
    destruct (strictEqOpt (Bookmark.folder_id b0) (Folder.id f)) eqn:Href;
      [reflexivity | exact Href].
  - reflexivity.
  - reflexivity.
Qed.

Lemma folder_delete_unfiles_bookmarks_witness :
  let a := Scenario.app "" in
  let m' := snd (@dispatch Pg.Db unit
                   (fun snap => @handleDeleteFolder Pg.Db Pg.environment snap "f-2")
                   (Scenario.machine a [])) in
  ~ In Scenario.work (folders (ui m'))
  /\ List.length (bookmarks (ui m')) = 3
  /\ (forall b, In b (bookmarks (ui m')) -> strictEqOpt (Bookmark.folder_id b) "f-2" = false).
Proof.
  destruct (@folder_delete_unfiles_bookmarks Pg.Db Pg.environment
              (Scenario.machine (Scenario.app "") []) Scenario.work _ _ _
              (or_intror (or_introl eq_refl)) scenario_folder_ids_distinct
              eq_refl eq_refl eq_refl eq_refl)
    as (_ & Habsent & Hlength & _ & Hunfiled & _).
  exact (conj Habsent (conj Hlength Hunfiled)).
Defined.

(** ** Initial load *)

(** C2, as stated, fails: on a fresh session whose folder fetch succeeds
    and whose bookmark fetch fails, the user is alerted, yet the mirror
    holds the fetched folders and no bookmarks. *)
Lemma load_failure_keeps_fetched_folders :
  let m' := snd (@loadUserData Pg.Db Pg.environment Scenario.owner
                   (mkMachine initialApp (Scenario.db [None; Some Pg.networkError])
                              [] [] [])) in
  alerts m' = [loadErrorMessage]
  /\ folders (ui m') = [Scenario.allBookmarks; Scenario.work]
  /\ folders (ui m') <> []
  /\ bookmarks (ui m') = [].
Proof. repeat split. discriminate. Qed.

(** C2 (amended): [loadUserData] always hands control back with
    [loading] false.  If obtaining the folders fails, the user is alerted
    and the mirror's folders and bookmarks are what they were before the
    call; if the folders are obtained and the bookmark fetch fails, the user
    is alerted, the bookmarks are what they were before the call, and the
    folders are the ones just obtained. *)
Theorem load_failure_alerts_and_keeps_bookmarks (R : Type) (E : Environment R)
    (userId : string) (m : Machine R) :
  let m' := snd (loadUserData userId m) in
  fst (loadUserData userId m) = Resolved tt
  /\ loading (ui m') = false
  /\ (forall e r1,
        folderStep userId (remote m) = (Rejected e, r1) ->
        alerts m' = alerts m ++ [loadErrorMessage]
        /\ folders (ui m') = folders (ui m)
        /\ bookmarks (ui m') = bookmarks (ui m))
  /\ (forall fs e r1 r2,
        folderStep userId (remote m) = (Resolved fs, r1) ->
        q_bookmarks_select userId r1 = (Rejected e, r2) ->
        alerts m' = alerts m ++ [loadErrorMessage]
        /\ folders (ui m') = fs
        /\ bookmarks (ui m') = bookmarks (ui m)).
Proof.
  cbv zeta. unfold loadUserData, folderStep. unfold_services. unfold_monad. cbn.
  destruct (q_folders_select userId (remote m)) as [[[|f0 fs]|e] r1]; cbn.
  - destruct (q_folders_insert _ r1) as [[d|e] r2]; cbn.
    + destruct (q_bookmarks_select userId r2) as [[bs|e] r3] eqn:Hbs; cbn;
        (split; [reflexivity | split; [reflexivity | split]]);
        intros; try discriminate.
      * match goal with H : (Resolved _, _) = (Resolved _, _) |- _ => inversion H; subst end.
        rewrite Hbs in *. discriminate.
      * match goal with H : (Resolved _, _) = (Resolved _, _) |- _ => inversion H; subst end.
        auto.
    + (split; [reflexivity | split; [reflexivity | split]]);
        intros; try discriminate. auto.
  - destruct (q_bookmarks_select userId r1) as [[bs|e] r3] eqn:Hbs; cbn;
      (split; [reflexivity | split; [reflexivity | split]]);
      intros; try discriminate.
    + match goal with H : (Resolved _, _) = (Resolved _, _) |- _ => inversion H; subst end.
      rewrite Hbs in *. discriminate.
    + match goal with H : (Resolved _, _) = (Resolved _, _) |- _ => inversion H; subst end.
      auto.
  - (split; [reflexivity | split; [reflexivity | split]]);
      intros; try discriminate. auto.
Qed.

Lemma load_failure_alerts_and_keeps_bookmarks_witness :
  let a := Scenario.app "" in
  let down := snd (@loadUserData Pg.Db Pg.environment Scenario.owner
                     (Scenario.machine a [Some Pg.networkError])) in
  let half := snd (@loadUserData Pg.Db Pg.environment Scenario.owner
                     (Scenario.machine a [None; Some Pg.networkError])) in
  (alerts down = [loadErrorMessage]
   /\ folders (ui down) = folders a /\ bookmarks (ui down) = bookmarks a)
  /\ (alerts half = [loadErrorMessage]
      /\ folders (ui half) = [Scenario.allBookmarks; Scenario.work]
      /\ bookmarks (ui half) = bookmarks a).
Proof.
  split.
  - destruct (@load_failure_alerts_and_keeps_bookmarks Pg.Db Pg.environment
                Scenario.owner (Scenario.machine (Scenario.app "") [Some Pg.networkError]))
      as (_ & _ & Hdown & _).
    exact (Hdown _ _ eq_refl).
  - destruct (@load_failure_alerts_and_keeps_bookmarks Pg.Db Pg.environment
                Scenario.owner
                (Scenario.machine (Scenario.app "") [None; Some Pg.networkError]))
      as (_ & _ & _ & Hhalf).
    exact (Hhalf _ _ _ _ eq_refl eq_refl).
Defined.

(** ** Adding a bookmark: the duplicate guard *)

(** C4: for a filled-in, valid URL submitted by a signed-in user.  When
    the guard's query finds a bookmark of that user with the normalised
    URL, the handler shows the duplicate error having issued only that
    query: no create call.  When the guard misses (it found nothing or its
    query failed) and the store rejects the insert with an error whose
    message names a duplicate, the handler shows the same error.  In both
    cases the mirror's bookmarks and folders are unchanged. *)
Theorem duplicate_submission_is_rejected (T : JS.Strings) (P : UrlPlatform) (R : Type)
    (E : Environment R) (m : Machine R) (userId : string) :
  JS.truthy (JS.trim (urlInput (ui m))) = true ->
  isValidUrl (urlInput (ui m)) = true ->
  currentUser (ui m) = Some userId ->
  let normalizedUrl := normalizeUrl (urlInput (ui m)) in
  let m' := snd (dispatch handleAddBookmark m) in
  (forall rowId r1,
      q_bookmarks_find_id userId normalizedUrl (remote m) = (Resolved (Some rowId), r1) ->
      urlError (ui m') = duplicateMessage
      /\ bookmarks (ui m') = bookmarks (ui m)
      /\ folders (ui m') = folders (ui m)
      /\ calls m' = calls m ++ [BookmarksCheckDuplicate userId normalizedUrl]
      /\ filter isCreateCall (calls m') = filter isCreateCall (calls m))
  /\ (forall g r1 e r2,
        q_bookmarks_find_id userId normalizedUrl (remote m) = (g, r1) ->
        (forall rowId, g <> Resolved (Some rowId)) ->
        q_bookmarks_insert (submittedBookmark (ui m) userId normalizedUrl) r1
        = (Rejected e, r2) ->
        messageIncludes e "duplicate" = true ->
        urlError (ui m') = duplicateMessage
        /\ bookmarks (ui m') = bookmarks (ui m)
        /\ folders (ui m') = folders (ui m)
        /\ calls m' = calls m ++ [BookmarksCheckDuplicate userId normalizedUrl;
                                  BookmarksCreate (submittedBookmark (ui m) userId normalizedUrl)]).
Proof.
  intros Hfilled Hvalid Huser. cbv zeta.
  unfold dispatch, handleAddBookmark, currentUser_id, submittedBookmark.
  rewrite Hfilled, Hvalid, Huser. cbn [negb].
  unfold_services. unfold_monad. cbn.
  split.
  - intros rowId r1 Hq. rewrite Hq. cbn.
    rewrite filter_app. cbn. rewrite app_nil_r. auto.
  - intros g r1 e r2 Hq Hmiss Hinsert Hdup. rewrite Hq.
    destruct g as [[rowId|]|e0]; [exfalso; exact (Hmiss rowId eq_refl) | |]; cbn;
      rewrite Hinsert; cbn; rewrite Hdup; cbn; rewrite <- app_assoc; auto.
Qed.

Lemma duplicate_submission_is_rejected_witness :
  let a := Scenario.app "example.com" in
  let guarded := snd (@dispatch Pg.Db unit
                        (@handleAddBookmark JS.reference RefUrl.platform Pg.Db Pg.environment)
                        (Scenario.machine a [])) in
  let raced := snd (@dispatch Pg.Db unit
                      (@handleAddBookmark JS.reference RefUrl.platform Pg.Db Pg.environment)
                      (Scenario.machine a [Some Pg.networkError])) in
  (urlError (ui guarded) = duplicateMessage
   /\ bookmarks (ui guarded) = bookmarks a
   /\ filter isCreateCall (calls guarded) = [])
  /\ (urlError (ui raced) = duplicateMessage
      /\ bookmarks (ui raced) = bookmarks a
      /\ countUpdates (calls raced) = 0).
Proof.
  split.
  - destruct (@duplicate_submission_is_rejected JS.reference RefUrl.platform Pg.Db Pg.environment
                (Scenario.machine (Scenario.app "example.com") []) Scenario.owner
                eq_refl eq_refl eq_refl) as (Hguard & _).
    destruct (Hguard "b-2" _ eq_refl) as (Herror & Hmirror & _ & _ & Hcreate).
    exact (conj Herror (conj Hmirror Hcreate)).
  - destruct (@duplicate_submission_is_rejected JS.reference RefUrl.platform Pg.Db Pg.environment
                (Scenario.machine (Scenario.app "example.com") [Some Pg.networkError])
                Scenario.owner eq_refl eq_refl eq_refl) as (_ & Hrace).
    destruct (Hrace (Rejected Pg.networkError) _
                    (Pg.uniqueViolation "bookmarks_user_id_url_key") _ eq_refl
                    (fun rowId H => eq_ind (Rejected Pg.networkError)
                       (fun o => match o with Rejected _ => True | Resolved _ => False end)
                       I _ H)
                    eq_refl eq_refl) as (Herror & Hmirror & _).
    exact (conj Herror (conj Hmirror eq_refl)).
Defined.

(** ** Sharing twice *)

Lemma find_replaced_by_id (bs : list Bookmark.t) (b row : Bookmark.t) :
  In b bs -> Bookmark.id row = Bookmark.id b ->
  find (fun x => String.eqb (Bookmark.id x) (Bookmark.id b))
       (map (fun x => if String.eqb (Bookmark.id x) (Bookmark.id b) then row else x) bs)
  = Some row.
Proof.
  intros Hin Hid. induction bs as [|x bs IH]; [contradiction|].
  simpl. destruct (String.eqb (Bookmark.id x) (Bookmark.id b)) eqn:Hx.
  - rewrite Hid, String.eqb_refl. reflexivity.
  - rewrite Hx. apply IH. destruct Hin as [->|Hin]; [|assumption].
    rewrite String.eqb_refl in Hx. discriminate.
Qed.

Lemma countUpdates_app (cs ds : list Call) :
  countUpdates (cs ++ ds) = countUpdates cs + countUpdates ds.
Proof. unfold countUpdates. now rewrite filter_app, length_app. Qed.

Section ShareTwice.
Context {R : Type} {E : Environment R}.

(** A share click on a bookmark whose mirror entry has a share id: the
    modal opens on the entry, and nothing else happens. *)
Lemma share_reuses (m : Machine R) (b x : Bookmark.t) :
  find (fun y => String.eqb (Bookmark.id y) (Bookmark.id b)) (bookmarks (ui m)) = Some x ->
  JS.truthyOpt (Bookmark.share_id x) = true ->
  share b m
  = (Resolved (Bookmark.share_id x),
     mkMachine (withShareModal (ui m) (Some x)) (remote m) (calls m) (alerts m) (console m)).
Proof.
  intros Hfind Hshared.
  unfold share, dispatch, mirrorEntry, handleShareBookmark.
  unfold bind. rewrite Hfind, Hshared. reflexivity.
Qed.

(** A share click on an unshared bookmark whose persist call succeeds. *)
Lemma share_issues (m : Machine R) (b row : Bookmark.t) (token : string) (r1 r2 : R) :
  find (fun y => String.eqb (Bookmark.id y) (Bookmark.id b)) (bookmarks (ui m)) = Some b ->
  JS.truthyOpt (Bookmark.share_id b) = false ->
  generateShareId (remote m) = (token, r1) ->
  q_bookmarks_update (Bookmark.id b) (shareUpdate token) r1 = (Resolved row, r2) ->
  share b m
  = (Resolved (Some token),
     mkMachine
       (mkApp (currentUser (ui m))
              (map (fun y => if String.eqb (Bookmark.id y) (Bookmark.id b) then row else y)
                   (bookmarks (ui m)))
              (folders (ui m)) (selectedFolder (ui m)) (filterQuery (ui m))
              (showAddModal (ui m))
              (Some (Bookmark.with_share_id b (Some token)))
              (loading (ui m)) (urlInput (ui m)) (urlError (ui m))
              (isLoadingMetadata (ui m)))
       r2 (calls m ++ [BookmarksUpdate (Bookmark.id b) (shareUpdate token)])
       (alerts m) (console m)).
Proof.
  intros Hfind Hunset Hgen Hq.
  unfold share. unfold bind at 1. unfold dispatch, mirrorEntry, handleShareBookmark.
  rewrite Hfind, Hunset. cbn [negb]. unfold bind, ask. rewrite Hgen. cbv beta iota.
  change {| Bookmark.set_title := None; Bookmark.set_description := None;
            Bookmark.set_tags := None; Bookmark.set_is_private := None;
            Bookmark.set_folder_id := None; Bookmark.set_share_id := Some token |}
    with (shareUpdate token).
  rewrite (@handleUpdateBookmark_resolved R E (ui m)
             (mkMachine (ui m) r1 (calls m) (alerts m) (console m))
             (Bookmark.id b) (shareUpdate token) row r2 Hq).
  reflexivity.
Qed.

End ShareTwice.

(** C6, as stated, fails on both counts.  Sharing twice a bookmark that
    already has a share id issues no update call, not one; and when the
    first persist call fails, the second share generates another token and
    issues a second update call. *)
Lemma share_twice_update_calls :
  let a := Scenario.app "" in
  countUpdates (calls (snd (@shareTwice Pg.Db Pg.environment Scenario.shared
                              (Scenario.machine a [])))) = 0
  /\ fst (@shareTwice Pg.Db Pg.environment Scenario.github
            (Scenario.machine a [Some Pg.networkError]))
     = Resolved (Some "tokA", Some "tokB")
  /\ countUpdates (calls (snd (@shareTwice Pg.Db Pg.environment Scenario.github
                                 (Scenario.machine a [Some Pg.networkError])))) = 2.
Proof. repeat split. Qed.

(** C6 (amended): for a bookmark of the mirror.  If it already has a
    (non-empty) share id, two shares show that id both times and issue no
    remote call, so the id is never changed.  If it has none and the
    persist call of the first share succeeds, the store returning the row
    with the generated token, then both shares show that token, the mirror
    holds it, and exactly one update call is issued over the two shares. *)
Theorem share_twice_reuses_token (R : Type) (E : Environment R)
    (m : Machine R) (b : Bookmark.t) :
  In b (bookmarks (ui m)) ->
  NoDup (map Bookmark.id (bookmarks (ui m))) ->
  (JS.truthyOpt (Bookmark.share_id b) = true ->
   fst (shareTwice b m) = Resolved (Bookmark.share_id b, Bookmark.share_id b)
   /\ calls (snd (shareTwice b m)) = calls m
   /\ bookmarks (ui (snd (shareTwice b m))) = bookmarks (ui m))
  /\ (forall token r1 row r2,
        JS.truthyOpt (Bookmark.share_id b) = false ->
        generateShareId (remote m) = (token, r1) ->
        JS.truthy token = true ->
        q_bookmarks_update (Bookmark.id b) (shareUpdate token) r1 = (Resolved row, r2) ->
        Bookmark.id row = Bookmark.id b ->
        Bookmark.share_id row = Some token ->
        fst (shareTwice b m) = Resolved (Some token, Some token)
        /\ calls (snd (shareTwice b m))
           = calls m ++ [BookmarksUpdate (Bookmark.id b) (shareUpdate token)]
        /\ countUpdates (calls (snd (shareTwice b m))) = countUpdates (calls m) + 1
        /\ Bookmark.share_id (mirrorEntry (ui (snd (shareTwice b m))) b) = Some token).
Proof.
  intros Hin Hnd.
  pose proof (find_bookmark_by_id _ _ Hnd Hin) as Hfind.
  split.
  - intros Hshared.
    assert (Hrun : shareTwice b m
                   = (Resolved (Bookmark.share_id b, Bookmark.share_id b),
                      mkMachine (withShareModal (ui m) (Some b)) (remote m) (calls m)
                                (alerts m) (console m))).
    { unfold shareTwice. unfold bind at 1.
      rewrite (@share_reuses R E m b b Hfind Hshared).
      unfold bind at 1.
      rewrite (@share_reuses R E _ b b); [reflexivity | exact Hfind | exact Hshared]. }
    rewrite Hrun. simpl. auto.
  - intros token r1 row r2 Hunset Hgen Htoken Hq Hid Hrow.
    assert (Hshared : JS.truthyOpt (Bookmark.share_id row) = true)
      by (rewrite Hrow; exact Htoken).
    assert (Hrun : exists a',
               shareTwice b m
               = (Resolved (Some token, Some token),
                  mkMachine a' r2
                    (calls m ++ [BookmarksUpdate (Bookmark.id b) (shareUpdate token)])
                    (alerts m) (console m))
               /\ bookmarks a'
                  = map (fun y => if String.eqb (Bookmark.id y) (Bookmark.id b)
                                  then row else y) (bookmarks (ui m))).
    { unfold shareTwice. unfold bind at 1.
      rewrite (@share_issues R E m b row token r1 r2 Hfind Hunset Hgen Hq).
      unfold bind at 1.
      rewrite (@share_reuses R E _ b row);
        [ | simpl; exact (find_replaced_by_id _ _ _ Hin Hid) | exact Hshared ].
      rewrite Hrow. eexists. split; reflexivity. }
    destruct Hrun as (a' & -> & Hmirror). simpl.
    split; [reflexivity | split; [reflexivity | split]].
    + rewrite countUpdates_app. reflexivity.
    + unfold mirrorEntry. rewrite Hmirror, (find_replaced_by_id _ _ _ Hin Hid).
      exact Hrow.
Qed.

Lemma scenario_bookmark_ids_distinct :
  NoDup (map Bookmark.id (bookmarks (Scenario.app ""))).
Proof.
  simpl. repeat constructor; simpl; intuition discriminate.
Qed.

Lemma share_twice_reuses_token_witness :
  let a := Scenario.app "" in
  (fst (@shareTwice Pg.Db Pg.environment Scenario.shared (Scenario.machine a []))
   = Resolved (Some "k3x9w1", Some "k3x9w1")
   /\ calls (snd (@shareTwice Pg.Db Pg.environment Scenario.shared
                    (Scenario.machine a []))) = [])
  /\ (fst (@shareTwice Pg.Db Pg.environment Scenario.github (Scenario.machine a []))
      = Resolved (Some "tokA", Some "tokA")
      /\ countUpdates (calls (snd (@shareTwice Pg.Db Pg.environment Scenario.github
                                     (Scenario.machine a [])))) = 1).
Proof.
  split.
  - destruct (@share_twice_reuses_token Pg.Db Pg.environment
                (Scenario.machine (Scenario.app "") []) Scenario.shared
                (or_introl eq_refl) scenario_bookmark_ids_distinct) as (Hreuse & _).
    destruct (Hreuse eq_refl) as (Htokens & Hcalls & _).
    exact (conj Htokens Hcalls).
  - destruct (@share_twice_reuses_token Pg.Db Pg.environment
                (Scenario.machine (Scenario.app "") []) Scenario.github
                (or_intror (or_intror (or_introl eq_refl)))
                scenario_bookmark_ids_distinct) as (_ & Hissue).
    destruct (Hissue "tokA" _ _ _ eq_refl eq_refl eq_refl eq_refl eq_refl eq_refl)
      as (Htokens & _ & Hcount & _).
    exact (conj Htokens Hcount).
Defined.

(** ** The filter/search evaluator *)

Lemma filter_twice {A} (p q : A -> bool) (l : list A) :
  filter q (filter p l) = filter (fun x => p x && q x) l.
Proof.
  induction l as [|x l IH]; [reflexivity|].
  simpl. destruct (p x); simpl; [destruct (q x) |]; now rewrite IH.
Qed.

Lemma filter_all {A} (l : list A) : filter (fun _ => true) l = l.
Proof. induction l as [|x l IH]; [reflexivity | simpl; now rewrite IH]. Qed.

Lemma filteredBookmarks_filter {T : JS.Strings} (bs : list Bookmark.t) (sel q : string)
    (fs : list Folder.t) :
  filteredBookmarks bs sel q fs = filter (keeps fs sel q) bs.
Proof.
  unfold filteredBookmarks, keeps. cbv zeta. fold (isAllView fs sel). fold matchesQuery.
  destruct (isAllView fs sel), (JS.truthy (JS.trim q)); cbn [negb].
  - apply filter_ext. intros b. reflexivity.
  - symmetry. apply filter_all.
  - rewrite filter_twice. reflexivity.
  - apply filter_ext. intros b. now rewrite andb_true_r.
Qed.

(** The empty query is blank, for every standard [trim]. *)
Lemma trim_empty {T : JS.Strings} {L : JS.Standard T} : JS.trim "" = "".
Proof. now rewrite JS.trim_ascii. Qed.

(** C7: [filteredBookmarks] is a function of the bookmark sequence, the
    selected folder, the query (and the folder list that tells whether the
    selection is the default folder).  It is the order-preserving filter of
    the input by [keeps]: no folder rule when the selection is the [all]
    sentinel or the default folder, no text rule when the trimmed query is
    empty, otherwise the lowercase query must occur in the lowercase title,
    description, URL or some tag; trimming and lower-casing are the
    runtime's own, over all of Unicode.  On a mirror of a bookmark titled
    GitHub and one titled Example whose description and URL do not contain
    [git], the query [git] keeps only the first, the empty query keeps both
    in order, and a folder selection that matches neither keeps none. *)
Theorem filteredBookmarks_evaluator (T : JS.Strings) (L : JS.Standard T)
    (bs : list Bookmark.t) (sel q : string) (fs : list Folder.t) :
  filteredBookmarks bs sel q fs = filter (keeps fs sel q) bs
  /\ (forall b, In b (filteredBookmarks bs sel q fs) <-> In b bs /\ keeps fs sel q b = true)
  /\ (isAllView fs sel = true ->
      filteredBookmarks bs sel q fs = filteredBookmarks bs "all" q fs)
  /\ (JS.trim q = "" ->
      filteredBookmarks bs sel q fs = filteredBookmarks bs sel "" fs)
  /\ (isAllView fs sel = true -> JS.trim q = "" -> filteredBookmarks bs sel q fs = bs)
  /\ (forall b1 b2,
        Bookmark.title b1 = "GitHub" -> Bookmark.tags b1 = Some ["dev"] ->
        Bookmark.title b2 = "Example" -> Bookmark.tags b2 = Some [] ->
        match Bookmark.description b2 with
        | Some d => JS.includes (JS.toLowerCase d) "git"
        | None => false
        end = false ->
        JS.includes (JS.toLowerCase (Bookmark.url b2)) "git" = false ->
        filteredBookmarks [b1; b2] "all" "git" fs = [b1]
        /\ filteredBookmarks [b1; b2] "all" "" fs = [b1; b2]
        /\ (isAllView fs sel = false ->
            strictEqOpt (Bookmark.folder_id b1) sel = false ->
            strictEqOpt (Bookmark.folder_id b2) sel = false ->
            filteredBookmarks [b1; b2] sel q fs = [])).
Proof.
  split; [apply filteredBookmarks_filter |].
  split; [intros b; rewrite filteredBookmarks_filter; apply filter_In |].
  split.
  { intros Hall. rewrite !filteredBookmarks_filter. apply filter_ext. intros b.
    unfold keeps. rewrite Hall. unfold isAllView. cbn. now rewrite orb_true_r. }
  split.
  { intros Hblank. rewrite !filteredBookmarks_filter. apply filter_ext. intros b.
    unfold keeps. rewrite Hblank, trim_empty. reflexivity. }
  split.
  { intros Hall Hblank. rewrite filteredBookmarks_filter.
    rewrite <- (filter_all bs) at 2. apply filter_ext. intros b.
    unfold keeps. rewrite Hall, Hblank. reflexivity. }
  intros b1 b2 Ht1 Hg1 Ht2 Hg2 Hd2 Hu2.
  assert (Hallview : isAllView fs "all" = true)
    by (unfold isAllView; cbn; apply orb_true_r).
  assert (Hgit : JS.toLowerCase "git" = "git")
    by (now rewrite JS.toLowerCase_ascii).
  assert (Hquery : JS.truthy (JS.trim "git") = true)
    by (now rewrite JS.trim_ascii).
  split; [| split].
  - assert (H1 : keeps fs "all" "git" b1 = true).
    { unfold keeps, matchesQuery. rewrite Hallview, Hquery, Hgit, Ht1.
      rewrite JS.toLowerCase_ascii by reflexivity. reflexivity. }
    assert (H2 : keeps fs "all" "git" b2 = false).
    { unfold keeps, matchesQuery. rewrite Hallview, Hquery, Hgit, Ht2, Hg2, Hd2, Hu2.
      rewrite JS.toLowerCase_ascii by reflexivity. reflexivity. }
    rewrite filteredBookmarks_filter. simpl filter. rewrite H1, H2. reflexivity.
  - rewrite filteredBookmarks_filter. unfold keeps. rewrite Hallview, trim_empty.
    reflexivity.
  - intros Hsel H1 H2. rewrite filteredBookmarks_filter. unfold keeps.
    rewrite Hsel. cbn. rewrite H1, H2. reflexivity.
Qed.

Lemma filteredBookmarks_evaluator_witness :
  let fs := [Scenario.allBookmarks; Scenario.work] in
  let bs := [Scenario.github; Scenario.example] in
  @filteredBookmarks JS.reference bs "all" "git" fs = [Scenario.github]
  /\ @filteredBookmarks JS.reference bs "all" "" fs = bs
  /\ @filteredBookmarks JS.reference bs "f-9" "git" fs = []
  /\ @filteredBookmarks JS.reference bs "f-1" "   " fs = bs.
Proof.
  destruct (@filteredBookmarks_evaluator JS.reference reference_standard
              [Scenario.github; Scenario.example] "f-9" "git"
              [Scenario.allBookmarks; Scenario.work])
    as (_ & _ & _ & _ & _ & Hexample).
  destruct (Hexample Scenario.github Scenario.example
                     eq_refl eq_refl eq_refl eq_refl eq_refl eq_refl)
    as (Hgit & Hempty & Hfolder).
  destruct (@filteredBookmarks_evaluator JS.reference reference_standard
              [Scenario.github; Scenario.example] "f-1" "   "
              [Scenario.allBookmarks; Scenario.work])
    as (_ & _ & _ & _ & Hnone & _).
  exact (conj Hgit (conj Hempty (conj (Hfolder eq_refl eq_refl eq_refl)
                                      (Hnone eq_refl eq_refl)))).
Defined.

(* ====================================================================== *)
(** * Further properties of the code                                       *)
(* ====================================================================== *)

(** ** Tag suggestions *)

Lemma existsb_eqb_In (t : string) (l : list string) :
  existsb (String.eqb t) l = true <-> In t l.
Proof.
  rewrite existsb_exists. split.
  - intros (x & Hx & Heq). apply String.eqb_eq in Heq. now subst.
  - intros Hin. exists t. split; [assumption | apply String.eqb_refl].
Qed.

Lemma addToSet_In (l : list string) (x t : string) :
  In t (addToSet l x) <-> In t l \/ t = x.
Proof.
  unfold addToSet. destruct (existsb (String.eqb x) l) eqn:Hx.
  - apply existsb_eqb_In in Hx. split; [auto | intros [H| ->]; assumption].
  - rewrite in_app_iff. simpl. intuition.
Qed.

Lemma addToSet_NoDup (l : list string) (x : string) :
  NoDup l -> NoDup (addToSet l x).
Proof.
  intros Hl. unfold addToSet. destruct (existsb (String.eqb x) l) eqn:Hx; [assumption|].
  apply NoDup_app; [assumption | repeat constructor; simpl; tauto |].
  intros a Ha [<-|[]]. apply existsb_eqb_In in Ha. congruence.
Qed.

Lemma fold_addToSet_In (ts acc : list string) (t : string) :
  In t (fold_left addToSet ts acc) <-> In t acc \/ In t ts.
Proof.
  revert acc. induction ts as [|x ts IH]; intros acc; simpl.
  - tauto.
  - rewrite IH, addToSet_In. intuition.
Qed.

Lemma fold_addToSet_NoDup (ts acc : list string) :
  NoDup acc -> NoDup (fold_left addToSet ts acc).
Proof.
  revert acc. induction ts as [|x ts IH]; intros acc Hacc; simpl;
    [assumption | apply IH, addToSet_NoDup, Hacc].
Qed.

Lemma collect_In (bs : list Bookmark.t) (acc : list string) (t : string) :
  In t (fold_left (fun allTags bookmark =>
                     match Bookmark.tags bookmark with
                     | Some ts => fold_left addToSet ts allTags
                     | None => allTags
                     end) bs acc)
  <-> In t acc \/ tagInUse bs t.
Proof.
  revert acc. induction bs as [|b bs IH]; intros acc; simpl.
  - split; [auto | intros [H | (b & ts & [] & _)]; assumption].
  - rewrite IH. unfold tagInUse. destruct (Bookmark.tags b) as [ts|] eqn:Hb.
    + rewrite fold_addToSet_In. split.
      * intros [[H|H] | (b' & ts' & Hin & Htags & Ht)]; [auto | right | right].
        -- exists b, ts. simpl; auto.
        -- exists b', ts'. simpl; auto.
      * intros [H | (b' & ts' & [<-|Hin] & Htags & Ht)]; [auto | | ].
        -- rewrite Hb in Htags. inversion Htags; subst. auto.
        -- right. exists b', ts'. auto.
    + split.
      * intros [H | (b' & ts' & Hin & Htags & Ht)]; [auto | right].
        exists b', ts'. simpl; auto.
      * intros [H | (b' & ts' & [<-|Hin] & Htags & Ht)]; [auto | congruence | ].
        right. exists b', ts'. auto.
Qed.

Lemma collect_NoDup (bs : list Bookmark.t) (acc : list string) :
  NoDup acc ->
  NoDup (fold_left (fun allTags bookmark =>
                      match Bookmark.tags bookmark with
                      | Some ts => fold_left addToSet ts allTags
                      | None => allTags
                      end) bs acc).
Proof.
  revert acc. induction bs as [|b bs IH]; intros acc Hacc; simpl; [assumption|].
  apply IH. destruct (Bookmark.tags b); [apply fold_addToSet_NoDup|]; assumption.
Qed.

Lemma collectTags_In (bs : list Bookmark.t) (t : string) :
  In t (collectTags bs) <-> tagInUse bs t.
Proof.
  unfold collectTags. rewrite collect_In. simpl. tauto.
Qed.

(** What the filter of [getTagSuggestions] keeps of the collected tags. *)
Lemma suggestions_characterised (bs : list Bookmark.t) (currentTags : list string) :
  let suggestions :=
    filter (fun tag => negb (existsb (String.eqb tag) currentTags)) (collectTags bs) in
  NoDup suggestions
  /\ forall t, In t suggestions <-> tagInUse bs t /\ ~ In t currentTags.
Proof.
  cbv zeta. split.
  - apply NoDup_filter, collect_NoDup. constructor.
  - intros t. rewrite filter_In, collectTags_In, negb_true_iff.
    split; intros [Huse Hcur]; split; try assumption.
    + intros Hin. apply existsb_eqb_In in Hin. congruence.
    + destruct (existsb (String.eqb t) currentTags) eqn:Hex; [|reflexivity].
      apply existsb_eqb_In in Hex. contradiction.
Qed.

(** X1: for a bookmark whose tags are an array, [getTagSuggestions]
    returns; a tag is suggested exactly when some bookmark of the mirror
    carries it and the bookmark at hand does not; and no tag is suggested
    twice, however many bookmarks carry it. *)
Theorem getTagSuggestions_sound_complete (bs : list Bookmark.t)
    (currentTags : list string) :
  exists suggestions,
    getTagSuggestions bs (Some currentTags) = Resolved suggestions
    /\ NoDup suggestions
    /\ forall t, In t suggestions <-> tagInUse bs t /\ ~ In t currentTags.
Proof.
  eexists. split; [reflexivity|].
  exact (suggestions_characterised bs currentTags).
Qed.

(** X2: for a bookmark whose tags are null, [getTagSuggestions] throws as
    soon as any bookmark of the mirror carries a tag: the default [[]] of
    the parameter does not stand in for null.  With no tag in use it
    returns the empty list. *)
Theorem getTagSuggestions_null_tags (bs : list Bookmark.t) :
  ((exists t, tagInUse bs t) -> getTagSuggestions bs None = Rejected nullArrayError)
  /\ ((forall t, ~ tagInUse bs t) -> getTagSuggestions bs None = Resolved []).
Proof.
  unfold getTagSuggestions. split.
  - intros (t & Ht). apply collectTags_In in Ht.
    destruct (collectTags bs); [contradiction | reflexivity].
  - intros Hnone. destruct (collectTags bs) as [|t l] eqn:Hc; [reflexivity|].
    exfalso. apply (Hnone t), collectTags_In. rewrite Hc. now left.
Qed.

Lemma getTagSuggestions_null_tags_witness :
  let untagged := Bookmark.with_folder_id
                    (Bookmark.mk "b-9" Scenario.owner None "https://x.org/" "X"
                                 None None None false None 9 9) None in
  getTagSuggestions [Scenario.github; untagged] (Bookmark.tags untagged)
  = Rejected nullArrayError
  /\ getTagSuggestions [Scenario.example; untagged] (Bookmark.tags untagged)
     = Resolved [].
Proof.
  split.
  - apply (proj1 (getTagSuggestions_null_tags _)).
    exists "dev", Scenario.github, ["dev"]. simpl. auto.
  - apply (proj2 (getTagSuggestions_null_tags _)).
    intros t (b & ts & [<-|[<-|[]]] & Htags & Hin); simpl in Htags.
    + inversion Htags; subst. contradiction.
    + discriminate.
Defined.

(** ** The card: tags *)

Section UpdateCalls.
Context {R : Type} {E : Environment R}.

(** [handleUpdateBookmark] never throws, and issues exactly its one call,
    whatever the store answers. *)
Lemma handleUpdateBookmark_calls (snap : App) (m : Machine R) (bookmarkId : string)
    (updates : Bookmark.updates) :
  fst (handleUpdateBookmark snap bookmarkId updates m) = Resolved tt
  /\ calls (snd (handleUpdateBookmark snap bookmarkId updates m))
     = calls m ++ [BookmarksUpdate bookmarkId updates].
Proof.
  destruct (q_bookmarks_update bookmarkId updates (remote m)) as [[row|e] r'] eqn:Hq.
  - rewrite (handleUpdateBookmark_resolved snap m _ _ Hq). auto.
  - rewrite (handleUpdateBookmark_rejected snap m _ _ Hq). auto.
Qed.

End UpdateCalls.

(** X3: [handleAddTag] refuses the empty tag and a tag the bookmark
    already carries: it issues no call and changes nothing but the card's
    tag input, which it closes and clears. *)
Theorem handleAddTag_refuses (R : Type) (E : Environment R) (snap : App)
    (b : Bookmark.t) (card : Card) (tag : string) (m : Machine R) :
  tag = "" \/ hasTag b tag = true ->
  handleAddTag snap b card tag m
  = (Resolved (mkCard (isEditing card) (editTitle card) (editDescription card)
                      false "" []), m).
Proof.
  intros Hrefuse. unfold handleAddTag.
  assert (Hcond : JS.truthy tag && negb (hasTag b tag) = false).
  { destruct Hrefuse as [-> | ->]; [reflexivity | apply andb_false_r]. }
  rewrite Hcond. reflexivity.
Qed.

Lemma handleAddTag_refuses_witness :
  let a := Scenario.app "" in
  let card := initialCard Scenario.github in
  @handleAddTag Pg.Db Pg.environment a Scenario.github card "dev" (Scenario.machine a [])
  = (Resolved card, Scenario.machine a []).
Proof.
  exact (@handleAddTag_refuses Pg.Db Pg.environment (Scenario.app "") Scenario.github
           (initialCard Scenario.github) "dev" (Scenario.machine (Scenario.app "") [])
           (or_intror eq_refl)).
Defined.

(** X4: for a non-empty tag the bookmark does not carry, [handleAddTag]
    issues one update whose tag list is the bookmark's tags followed by
    the new tag; if the bookmark's tags were pairwise distinct, so is the
    list it sends. *)
Theorem handleAddTag_sends_distinct_tags (R : Type) (E : Environment R) (snap : App)
    (b : Bookmark.t) (card : Card) (tag : string) (m : Machine R) :
  let ts := match Bookmark.tags b with Some ts => ts | None => [] end in
  tag <> "" ->
  hasTag b tag = false ->
  calls (snd (handleAddTag snap b card tag m))
  = calls m ++ [BookmarksUpdate (Bookmark.id b) (tagsUpdate (ts ++ [tag]))]
  /\ (NoDup ts -> NoDup (ts ++ [tag])).
Proof.
  intros ts Htag Hnew. split.
  - unfold handleAddTag. rewrite Hnew.
    assert (Ht : JS.truthy tag = true) by (destruct tag; [congruence | reflexivity]).
    rewrite Ht. cbn [andb negb]. unfold bind.
    pose proof (handleUpdateBookmark_calls snap m (Bookmark.id b)
                  (tagsUpdate (ts ++ [tag]))) as [Hres Hcalls].
    fold ts.
    destruct (handleUpdateBookmark snap (Bookmark.id b) (tagsUpdate (ts ++ [tag])) m)
      as [o m1].
    simpl in Hres, Hcalls. subst o. exact Hcalls.
  - intros Hnd. apply NoDup_app; [assumption | repeat constructor; simpl; tauto |].
    intros a Ha [<-|[]].
    unfold hasTag in Hnew. subst ts. destruct (Bookmark.tags b) as [l|]; [|contradiction].
    apply existsb_eqb_In in Ha. congruence.
Qed.

Lemma handleAddTag_sends_distinct_tags_witness :
  let a := Scenario.app "" in
  calls (snd (@handleAddTag Pg.Db Pg.environment a Scenario.github
                (initialCard Scenario.github) "rocq" (Scenario.machine a [])))
  = [BookmarksUpdate "b-1" (tagsUpdate ["dev"; "rocq"])]
  /\ (NoDup ["dev"] -> NoDup ["dev"; "rocq"]).
Proof.
  refine (@handleAddTag_sends_distinct_tags Pg.Db Pg.environment (Scenario.app "")
            Scenario.github (initialCard Scenario.github) "rocq"
            (Scenario.machine (Scenario.app "") []) _ eq_refl).
  discriminate.
Defined.

(** X5: [handleRemoveTag] issues one update whose tag list is the
    bookmark's without the removed tag, the others in their order; so
    removing the tag that [handleAddTag] appended sends back the original
    list.  On a bookmark whose tags are null it throws before any call. *)
Theorem handleRemoveTag_drops_tag (R : Type) (E : Environment R) (snap : App)
    (b : Bookmark.t) (tag : string) (m : Machine R) :
  (forall ts, Bookmark.tags b = Some ts ->
     let sent := filter (fun t => negb (String.eqb t tag)) ts in
     calls (snd (handleRemoveTag snap b tag m))
     = calls m ++ [BookmarksUpdate (Bookmark.id b) (tagsUpdate sent)]
     /\ ~ In tag sent
     /\ (forall t, t <> tag -> (In t sent <-> In t ts))
     /\ (forall ts0, ts = ts0 ++ [tag] -> ~ In tag ts0 -> sent = ts0))
  /\ (Bookmark.tags b = None ->
      handleRemoveTag snap b tag m = (Rejected nullArrayError, m)).
Proof.
  split.
  - intros ts Hts sent. split; [| split; [| split]].
    + unfold handleRemoveTag. rewrite Hts.
      apply (handleUpdateBookmark_calls snap m).
    + intros Hin. apply filter_In in Hin. destruct Hin as [_ Hin].
      rewrite String.eqb_refl in Hin. discriminate.
    + intros t Ht. unfold sent. rewrite filter_In. split; [tauto|].
      intros Hin. split; [assumption|].
      destruct (String.eqb_spec t tag); [contradiction | reflexivity].
    + intros ts0 -> Hfresh. unfold sent. rewrite filter_app. simpl.
      rewrite String.eqb_refl. simpl. rewrite app_nil_r.
      clear sent Hts. induction ts0 as [|x ts0 IH]; [reflexivity|].
      simpl. destruct (String.eqb_spec x tag) as [->|_].
      * exfalso. apply Hfresh. now left.
      * simpl. f_equal. apply IH. intros Hin. apply Hfresh. now right.
  - intros Hnull. unfold handleRemoveTag. rewrite Hnull. reflexivity.
Qed.

Lemma handleRemoveTag_drops_tag_witness :
  let a := Scenario.app "" in
  let tagged := Bookmark.mk "b-1" Scenario.owner (Some "f-2") "https://github.com/"
                  "GitHub" None None (Some ["dev"; "rocq"]) false None 2 6 in
  calls (snd (@handleRemoveTag Pg.Db Pg.environment a tagged "rocq"
                (Scenario.machine a [])))
  = [BookmarksUpdate "b-1" (tagsUpdate ["dev"])].
Proof.
  exact (proj1 (proj1 (@handleRemoveTag_drops_tag Pg.Db Pg.environment (Scenario.app "")
           (Bookmark.mk "b-1" Scenario.owner (Some "f-2") "https://github.com/"
              "GitHub" None None (Some ["dev"; "rocq"]) false None 2 6)
           "rocq" (Scenario.machine (Scenario.app "") [])) _ eq_refl)).
Defined.

(** X6: what [handleTagInputChange] offers while the user types comes
    from [getTagSuggestions], so every tag offered is in use on some
    bookmark, is not yet on this bookmark, and its lower-case form
    contains the lower-case form of the typed text; typing a text with the
    same lower-case form offers the same tags.  Lower-casing is the
    runtime's, over all of Unicode. *)
Theorem offered_tags_are_new_and_match (T : JS.Strings) (L : JS.Standard T)
    (bs : list Bookmark.t) (b : Bookmark.t) (allTags : list string) (card : Card)
    (value : string) :
  getTagSuggestions bs (Bookmark.tags b) = Resolved allTags ->
  (forall tag, In tag (tagSuggestions (handleTagInputChange allTags card value)) ->
     tagInUse bs tag /\ hasTag b tag = false
     /\ JS.includes (JS.toLowerCase tag) (JS.toLowerCase value) = true)
  /\ (forall value',
        JS.toLowerCase value' = JS.toLowerCase value ->
        tagSuggestions (handleTagInputChange allTags card value')
        = tagSuggestions (handleTagInputChange allTags card value)).
Proof.
  intros Hall. split.
  - intros tag Hin. unfold handleTagInputChange in Hin. cbn [tagSuggestions] in Hin.
    destruct (JS.truthy value); [|contradiction].
    apply filter_In in Hin. destruct Hin as [Hin Hmatch].
    unfold hasTag. destruct (Bookmark.tags b) as [ts|] eqn:Hts.
    + destruct (suggestions_characterised bs ts) as (_ & Hiff).
      unfold getTagSuggestions in Hall. inversion Hall; subst.
      apply Hiff in Hin. destruct Hin as [Huse Hnot]. split; [assumption | split].
      * destruct (existsb (String.eqb tag) ts) eqn:Hex; [|reflexivity].
        apply existsb_eqb_In in Hex. contradiction.
      * assumption.
    + unfold getTagSuggestions in Hall.
      destruct (collectTags bs); [|discriminate]. inversion Hall; subst. contradiction.
  - intros value' Hcase. unfold handleTagInputChange. cbn [tagSuggestions].
    rewrite <- (JS.toLowerCase_nonempty value'), Hcase, JS.toLowerCase_nonempty.
    reflexivity.
Qed.

Lemma offered_tags_are_new_and_match_witness :
  tagSuggestions (@handleTagInputChange JS.reference ["proofs"]
                    (initialCard Scenario.github) "PROOF")
  = tagSuggestions (@handleTagInputChange JS.reference ["proofs"]
                      (initialCard Scenario.github) "proof")
  /\ forall tag,
       In tag (tagSuggestions
                 (@handleTagInputChange JS.reference ["proofs"]
                    (initialCard Scenario.github) "proof")) ->
       hasTag Scenario.github tag = false.
Proof.
  destruct (@offered_tags_are_new_and_match JS.reference reference_standard
              [Scenario.shared; Scenario.example; Scenario.github] Scenario.github
              ["proofs"] (initialCard Scenario.github) "proof" eq_refl)
    as (Hnew & Hcase).
  split.
  - exact (Hcase "PROOF" eq_refl).
  - intros tag Hin. exact (proj1 (proj2 (Hnew tag Hin))).
Defined.

(** ** Privacy toggle and drag-and-drop *)

Lemma find_bookmark_none (bs : list Bookmark.t) (bookmarkId : string) :
  (forall b, In b bs -> Bookmark.id b <> bookmarkId) ->
  find (fun b => String.eqb (Bookmark.id b) bookmarkId) bs = None.
Proof.
  intros Hnone. induction bs as [|x bs IH]; [reflexivity|]. simpl.
  destruct (String.eqb_spec (Bookmark.id x) bookmarkId) as [Heq|_].
  - exfalso. exact (Hnone x (or_introl eq_refl) Heq).
  - apply IH. intros b Hb. apply Hnone. now right.
Qed.

(** X7: [handleTogglePrivacy] on an id that no bookmark of the mirror
    has throws before anything else happens: no call is issued and the
    state is untouched. *)
Theorem handleTogglePrivacy_unknown_id (R : Type) (E : Environment R) (snap : App)
    (bookmarkId : string) (m : Machine R) :
  (forall b, In b (bookmarks snap) -> Bookmark.id b <> bookmarkId) ->
  handleTogglePrivacy snap bookmarkId m = (Rejected undefinedError, m).
Proof.
  intros Hnone. unfold handleTogglePrivacy.
  rewrite (find_bookmark_none _ Hnone). reflexivity.
Qed.

Lemma handleTogglePrivacy_unknown_id_witness :
  let a := Scenario.app "" in
  @handleTogglePrivacy Pg.Db Pg.environment a "b-404" (Scenario.machine a [])
  = (Rejected undefinedError, Scenario.machine a []).
Proof.
  refine (@handleTogglePrivacy_unknown_id Pg.Db Pg.environment (Scenario.app "") "b-404"
            (Scenario.machine (Scenario.app "") []) _).
  intros b [<-|[<-|[<-|[]]]]; discriminate.
Defined.

(** X8: two privacy clicks on a bookmark of the mirror, the store
    accepting the first and returning the row with the flag it was sent:
    the first update sends the negation of the bookmark's flag and the
    second, reading the refreshed mirror, sends the original flag back. *)
Theorem toggle_privacy_twice_restores (R : Type) (E : Environment R)
    (m : Machine R) (b row : Bookmark.t) (r1 : R) :
  In b (bookmarks (ui m)) ->
  NoDup (map Bookmark.id (bookmarks (ui m))) ->
  q_bookmarks_update (Bookmark.id b) (privacyUpdate (negb (Bookmark.is_private b)))
                     (remote m) = (Resolved row, r1) ->
  Bookmark.id row = Bookmark.id b ->
  Bookmark.is_private row = negb (Bookmark.is_private b) ->
  fst (toggleTwice (Bookmark.id b) m) = Resolved tt
  /\ calls (snd (toggleTwice (Bookmark.id b) m))
     = calls m ++ [BookmarksUpdate (Bookmark.id b)
                     (privacyUpdate (negb (Bookmark.is_private b)));
                   BookmarksUpdate (Bookmark.id b)
                     (privacyUpdate (Bookmark.is_private b))].
Proof.
  intros Hin Hnd Hq Hid Hflag.
  assert (Hrun : exists m2,
             toggleTwice (Bookmark.id b) m = (Resolved tt, m2)
             /\ calls m2
                = calls m ++ [BookmarksUpdate (Bookmark.id b)
                                (privacyUpdate (negb (Bookmark.is_private b)));
                              BookmarksUpdate (Bookmark.id b)
                                (privacyUpdate (Bookmark.is_private b))]).
  { unfold toggleTwice. unfold bind. unfold dispatch at 1. unfold handleTogglePrivacy at 1.
    rewrite (find_bookmark_by_id _ _ Hnd Hin).
    rewrite (handleUpdateBookmark_resolved (ui m) m _ _ Hq).
    unfold dispatch. unfold handleTogglePrivacy. cbn [ui bookmarks].
    rewrite (find_replaced_by_id _ _ _ Hin Hid), Hflag, negb_involutive.
    match goal with
    | |- context [handleUpdateBookmark ?s ?i ?u ?mm] =>
        destruct (handleUpdateBookmark_calls s mm i u) as [Hres Hcalls];
        destruct (handleUpdateBookmark s i u mm) as [o m2]
    end.
    simpl in Hres, Hcalls. subst o. exists m2. split; [reflexivity|].
    rewrite Hcalls, <- app_assoc. reflexivity. }
  destruct Hrun as (m2 & -> & Hcalls). auto.
Qed.

Lemma toggle_privacy_twice_restores_witness :
  let a := Scenario.app "" in
  calls (snd (@toggleTwice Pg.Db Pg.environment "b-1" (Scenario.machine a [])))
  = [BookmarksUpdate "b-1" (privacyUpdate true);
     BookmarksUpdate "b-1" (privacyUpdate false)].
Proof.
  exact (proj2 (@toggle_privacy_twice_restores Pg.Db Pg.environment
                  (Scenario.machine (Scenario.app "") []) Scenario.github _ _
                  (or_intror (or_intror (or_introl eq_refl)))
                  scenario_bookmark_ids_distinct eq_refl eq_refl eq_refl)).
Defined.

(** X9: a drop always ends the drag and never throws, even when the
    update fails.  It issues no call when nothing is being dragged or
    when the bookmark is dropped on the folder it is already in;
    otherwise it issues exactly one update, moving the bookmark to the
    folder. *)
Theorem handleDropOnFolder_moves_once (R : Type) (E : Environment R) (snap : App)
    (dragged : option Bookmark.t) (folderId : string) (m : Machine R) :
  fst (handleDropOnFolder snap dragged folderId m) = Resolved None
  /\ (dragged = None ->
      snd (handleDropOnFolder snap dragged folderId m) = m)
  /\ (forall d, dragged = Some d -> Bookmark.folder_id d = Some folderId ->
      snd (handleDropOnFolder snap dragged folderId m) = m)
  /\ (forall d, dragged = Some d -> Bookmark.folder_id d <> Some folderId ->
      calls (snd (handleDropOnFolder snap dragged folderId m))
      = calls m ++ [BookmarksUpdate (Bookmark.id d) (folderUpdate folderId)]).
Proof.
  unfold handleDropOnFolder, bind.
  destruct dragged as [d|]; [| repeat split; intros; discriminate].
  destruct (strictEqOpt (Bookmark.folder_id d) folderId) eqn:Hsame; cbn [negb].
  - repeat split; intros; try discriminate.
    match goal with H : Some _ = Some _ |- _ => inversion H; subst end.
    exfalso. unfold strictEqOpt in Hsame. destruct (Bookmark.folder_id d0) as [f|];
      [|discriminate]. apply String.eqb_eq in Hsame. congruence.
  - destruct (handleUpdateBookmark_calls snap m (Bookmark.id d) (folderUpdate folderId))
      as [Hres Hcalls].
    destruct (handleUpdateBookmark snap (Bookmark.id d) (folderUpdate folderId) m)
      as [o m1].
    simpl in Hres, Hcalls |- *. subst o.
    split; [reflexivity | split; [discriminate | split]].
    + intros d0 Hd Hfolder. inversion Hd; subst.
      unfold strictEqOpt in Hsame. rewrite Hfolder, String.eqb_refl in Hsame.
      discriminate.
    + intros d0 Hd _. inversion Hd; subst. exact Hcalls.
Qed.

Lemma handleDropOnFolder_moves_once_witness :
  let a := Scenario.app "" in
  snd (@handleDropOnFolder Pg.Db Pg.environment a (Some Scenario.github) "f-2"
         (Scenario.machine a [])) = Scenario.machine a []
  /\ calls (snd (@handleDropOnFolder Pg.Db Pg.environment a (Some Scenario.example) "f-2"
                   (Scenario.machine a [])))
     = [BookmarksUpdate "b-2" (folderUpdate "f-2")].
Proof.
  destruct (@handleDropOnFolder_moves_once Pg.Db Pg.environment (Scenario.app "")
              (Some Scenario.github) "f-2" (Scenario.machine (Scenario.app "") []))
    as (_ & _ & Hsame & _).
  destruct (@handleDropOnFolder_moves_once Pg.Db Pg.environment (Scenario.app "")
              (Some Scenario.example) "f-2" (Scenario.machine (Scenario.app "") []))
    as (_ & _ & _ & Hmove).
  split.
  - exact (Hsame _ eq_refl eq_refl).
  - refine (Hmove _ eq_refl _). discriminate.
Defined.

(** ** Deleting a bookmark, adding a folder *)

(** X10: [handleDeleteBookmark] leaves the React state exactly as it was
    when the user declines the confirmation (no delete query is made)
    and when the store rejects the delete (the user is then alerted). *)
Theorem bookmark_delete_declined_or_failed (R : Type) (E : Environment R)
    (S : SessionEnvironment R) (snap : App) (bookmarkId : string) (m : Machine R) :
  (forall r1,
      window_confirm "Are you sure you want to delete this bookmark?" (remote m)
      = (false, r1) ->
      handleDeleteBookmark snap bookmarkId m
      = (Resolved tt, mkMachine (ui m) r1 (calls m) (alerts m) (console m)))
  /\ (forall r1 e r2,
        window_confirm "Are you sure you want to delete this bookmark?" (remote m)
        = (true, r1) ->
        q_bookmarks_delete bookmarkId r1 = (Rejected e, r2) ->
        ui (snd (handleDeleteBookmark snap bookmarkId m)) = ui m
        /\ alerts (snd (handleDeleteBookmark snap bookmarkId m))
           = alerts m ++ ["Failed to delete bookmark"]).
Proof.
  split.
  - intros r1 Hno. unfold handleDeleteBookmark, bind, ask. rewrite Hno. reflexivity.
  - intros r1 e r2 Hyes Hq.
    unfold handleDeleteBookmark, bookmarksService_delete, query. unfold_monad.
    rewrite Hyes. cbn. rewrite Hq. cbn. auto.
Qed.

Lemma bookmark_delete_declined_or_failed_witness :
  let a := Scenario.app "" in
  let m' := snd (@handleDeleteBookmark Pg.Db Pg.environment (PgSession.environment None)
                   a "b-1" (Scenario.machine a [Some Pg.networkError])) in
  ui m' = a /\ alerts m' = ["Failed to delete bookmark"].
Proof.
  destruct (@bookmark_delete_declined_or_failed Pg.Db Pg.environment
              (PgSession.environment None) (Scenario.app "") "b-1"
              (Scenario.machine (Scenario.app "") [Some Pg.networkError]))
    as (_ & Hfailed).
  exact (Hfailed _ _ _ eq_refl eq_refl).
Defined.

(** X11: a confirmed delete that the store accepts removes from the
    mirror exactly the bookmarks with that id: a bookmark with another id
    is in the mirror afterwards iff it was before, the remaining bookmarks
    are in their order, and the folders are untouched. *)
Theorem bookmark_delete_removes_only_it (R : Type) (E : Environment R)
    (S : SessionEnvironment R) (m : Machine R) (bookmarkId : string) (r1 r2 : R) :
  window_confirm "Are you sure you want to delete this bookmark?" (remote m)
  = (true, r1) ->
  q_bookmarks_delete bookmarkId r1 = (Resolved tt, r2) ->
  let m' := snd (dispatch (fun snap => handleDeleteBookmark snap bookmarkId) m) in
  bookmarks (ui m')
  = filter (fun b => negb (String.eqb (Bookmark.id b) bookmarkId)) (bookmarks (ui m))
  /\ (forall b, In b (bookmarks (ui m')) -> Bookmark.id b <> bookmarkId)
  /\ (forall b, Bookmark.id b <> bookmarkId ->
        (In b (bookmarks (ui m')) <-> In b (bookmarks (ui m))))
  /\ folders (ui m') = folders (ui m)
  /\ alerts m' = alerts m.
Proof.
  intros Hyes Hq. cbv zeta.
  unfold dispatch, handleDeleteBookmark, bookmarksService_delete, query. unfold_monad.
  rewrite Hyes. cbn. rewrite Hq. cbn.
  split; [reflexivity | split; [| split; [| auto]]].
  - intros b Hb. apply filter_In in Hb. destruct Hb as [_ Hb].
    destruct (String.eqb_spec (Bookmark.id b) bookmarkId); [discriminate | assumption].
  - intros b Hb. rewrite filter_In. split; [tauto|]. intros Hin. split; [assumption|].
    destruct (String.eqb_spec (Bookmark.id b) bookmarkId); [contradiction | reflexivity].
Qed.

Lemma bookmark_delete_removes_only_it_witness :
  let a := Scenario.app "" in
  let m' := snd (@dispatch Pg.Db unit
                   (fun snap => @handleDeleteBookmark Pg.Db Pg.environment
                                  (PgSession.environment None) snap "b-2")
                   (Scenario.machine a [])) in
  bookmarks (ui m') = [Scenario.shared; Scenario.github]
  /\ folders (ui m') = folders a.
Proof.
  destruct (@bookmark_delete_removes_only_it Pg.Db Pg.environment
              (PgSession.environment None) (Scenario.machine (Scenario.app "") [])
              "b-2" _ _ eq_refl eq_refl) as (Hmirror & _ & _ & Hfolders & _).
  exact (conj Hmirror Hfolders).
Defined.

(** X12: [handleAddFolder] does nothing at all for a name that the
    runtime's [trim] empties (an empty name, or one of white space only):
    no call, no state change, the form as it was. *)
Theorem handleAddFolder_blank_name (T : JS.Strings) (R : Type) (E : Environment R) (snap : App)
    (form : FolderForm) (m : Machine R) :
  JS.trim (folderNameInput form) = "" ->
  handleAddFolder snap form m = (Resolved form, m).
Proof.
  intros Hblank. unfold handleAddFolder. rewrite Hblank. reflexivity.
Qed.

Lemma handleAddFolder_blank_name_witness :
  let a := Scenario.app "" in
  @handleAddFolder JS.reference Pg.Db Pg.environment a (mkFolderForm "   " true) (Scenario.machine a [])
  = (Resolved (mkFolderForm "   " true), Scenario.machine a []).
Proof.
  exact (@handleAddFolder_blank_name JS.reference Pg.Db Pg.environment (Scenario.app "")
           (mkFolderForm "   " true) (Scenario.machine (Scenario.app "") []) eq_refl).
Defined.

(** X13: for a signed-in user and a non-blank name, [handleAddFolder]
    asks the store for a folder that is not the default one and whose
    name is the input exactly as typed (untrimmed).  If the store accepts,
    the returned folder goes to the end of the mirror's folders and the
    form is cleared and closed; if it rejects, the folders are unchanged,
    the user is alerted and the form keeps the typed name. *)
Theorem handleAddFolder_appends (T : JS.Strings) (R : Type) (E : Environment R)
    (m : Machine R) (form : FolderForm) (userId : string) :
  JS.truthy (JS.trim (folderNameInput form)) = true ->
  currentUser (ui m) = Some userId ->
  let request := {| Folder.new_user_id := userId;
                    Folder.new_name := folderNameInput form;
                    Folder.new_is_default := false |} in
  let run := dispatch (fun snap => handleAddFolder snap form) m in
  calls (snd run) = calls m ++ [FoldersCreate request]
  /\ (forall f r1, q_folders_insert request (remote m) = (Resolved f, r1) ->
        fst run = Resolved (mkFolderForm "" false)
        /\ folders (ui (snd run)) = folders (ui m) ++ [f]
        /\ bookmarks (ui (snd run)) = bookmarks (ui m))
  /\ (forall e r1, q_folders_insert request (remote m) = (Rejected e, r1) ->
        fst run = Resolved form
        /\ ui (snd run) = ui m
        /\ alerts (snd run) = alerts m ++ ["Failed to create folder"]).
Proof.
  intros Hname Huser. cbv zeta.
  unfold dispatch, handleAddFolder, currentUser_id. rewrite Hname, Huser. cbn [negb].
  unfold_services. unfold_monad.
  destruct (q_folders_insert _ (remote m)) as [[f|e] r1]; cbn;
    (split; [reflexivity | split]); intros; try discriminate;
    match goal with H : (_, _) = (_, _) |- _ => inversion H; subst end; auto.
Qed.

Lemma handleAddFolder_appends_witness :
  let a := Scenario.app "" in
  let run := @dispatch Pg.Db FolderForm
               (fun snap => @handleAddFolder JS.reference Pg.Db Pg.environment snap
                              (mkFolderForm " Reading " true))
               (Scenario.machine a []) in
  fst run = Resolved (mkFolderForm "" false)
  /\ folders (ui (snd run))
     = [Scenario.allBookmarks; Scenario.work;
        Folder.mk "id-5" Scenario.owner " Reading " false 5 5].
Proof.
  destruct (@handleAddFolder_appends JS.reference Pg.Db Pg.environment
              (Scenario.machine (Scenario.app "") []) (mkFolderForm " Reading " true)
              Scenario.owner eq_refl eq_refl) as (_ & Haccepted & _).
  destruct (Haccepted _ _ eq_refl) as (Hform & Hfolders & _).
  exact (conj Hform Hfolders).
Defined.

(** ** Session *)

(** X14: [handleLogout] empties the mirror, forgets the user and goes
    back to the [all] view when the sign-out succeeds; when the sign-out
    fails nothing changes: the user stays signed in with the mirror
    intact, and the failure is only logged to the console. *)
Theorem handleLogout_clears_or_keeps (R : Type) (E : Environment R)
    (S : SessionEnvironment R) (m : Machine R) :
  (forall r1, auth_signOut (remote m) = (Resolved tt, r1) ->
     let a' := ui (snd (handleLogout m)) in
     currentUser a' = None /\ bookmarks a' = [] /\ folders a' = []
     /\ selectedFolder a' = "all")
  /\ (forall e r1, auth_signOut (remote m) = (Rejected e, r1) ->
        handleLogout m
        = (Resolved tt,
           mkMachine (ui m) r1 (calls m) (alerts m) (console m ++ ["Logout error:"]))).
Proof.
  unfold handleLogout, authService_signOut, query. unfold_monad.
  split; intros; match goal with H : auth_signOut _ = _ |- _ => rewrite H end;
    cbn; auto.
Qed.

Lemma handleLogout_clears_or_keeps_witness :
  let a := Scenario.app "" in
  ui (snd (@handleLogout Pg.Db (PgSession.environment (Some Scenario.owner))
             (Scenario.machine a [Some Pg.networkError]))) = a
  /\ bookmarks (ui (snd (@handleLogout Pg.Db (PgSession.environment (Some Scenario.owner))
                           (Scenario.machine a [])))) = [].
Proof.
  destruct (@handleLogout_clears_or_keeps Pg.Db Pg.environment
              (PgSession.environment (Some Scenario.owner))
              (Scenario.machine (Scenario.app "") [Some Pg.networkError]))
    as (_ & Hfailed).
  destruct (@handleLogout_clears_or_keeps Pg.Db Pg.environment
              (PgSession.environment (Some Scenario.owner))
              (Scenario.machine (Scenario.app "") []))
    as (Hcleared & _).
  split.
  - rewrite (Hfailed _ _ eq_refl). reflexivity.
  - exact (proj1 (proj2 (Hcleared _ eq_refl))).
Defined.

(** [loadUserData] catches every failure of its queries. *)
Lemma loadUserData_resolves (R : Type) (E : Environment R)
    (userId : string) (m : Machine R) :
  fst (loadUserData userId m) = Resolved tt.
Proof.
  unfold loadUserData. unfold_services. unfold_monad. cbn.
  destruct (q_folders_select userId (remote m)) as [[[|f0 fs]|e] r1]; cbn;
    [destruct (q_folders_insert _ r1) as [[d|e] r2]; cbn | |];
    try reflexivity;
    match goal with
    | |- context [q_bookmarks_select userId ?r] =>
        destruct (q_bookmarks_select userId r) as [[bs|e'] r3]; reflexivity
    end.
Qed.

(** X15: [checkSession] never throws and always ends with [loading]
    false.  When there is no session, or the session query fails, it
    fetches nothing (no folder or bookmark call) and leaves the user, the
    bookmarks and the folders of the state as they were. *)
Theorem checkSession_without_session (R : Type) (E : Environment R)
    (S : SessionEnvironment R) (m : Machine R) :
  fst (checkSession m) = Resolved tt
  /\ loading (ui (snd (checkSession m))) = false
  /\ (forall o r1, auth_getUser (remote m) = (o, r1) ->
        (forall userId, o <> Resolved (Some userId)) ->
        let m' := snd (checkSession m) in
        calls m' = calls m /\ alerts m' = alerts m
        /\ currentUser (ui m') = currentUser (ui m)
        /\ bookmarks (ui m') = bookmarks (ui m)
        /\ folders (ui m') = folders (ui m)).
Proof.
  assert (Hrun : exists m',
             checkSession m = (Resolved tt, m')
             /\ loading (ui m') = false
             /\ (forall o r1, auth_getUser (remote m) = (o, r1) ->
                   (forall userId, o <> Resolved (Some userId)) ->
                   calls m' = calls m /\ alerts m' = alerts m
                   /\ currentUser (ui m') = currentUser (ui m)
                   /\ bookmarks (ui m') = bookmarks (ui m)
                   /\ folders (ui m') = folders (ui m))).
  { unfold checkSession, authService_getCurrentUser, query.
    unfold try_finally at 1. unfold try_catch at 1. unfold bind at 1.
    destruct (auth_getUser (remote m)) as [[[userId|]|e] r1] eqn:Hq.
    - unfold bind at 1. unfold setCurrentUser, modifyUi at 1.
      match goal with
      | |- context [loadUserData userId ?mm] =>
          pose proof (loadUserData_resolves E userId mm) as Hres;
          destruct (loadUserData userId mm) as [o m1]
      end.
      simpl in Hres. subst o. unfold setLoading, modifyUi. cbn.
      eexists. split; [reflexivity | split; [reflexivity|]].
      intros o r Heq Hnot. inversion Heq; subst. exfalso. exact (Hnot userId eq_refl).
    - unfold_monad. cbn. eexists. split; [reflexivity | split; [reflexivity|]].
      intros. cbn. auto.
    - unfold_monad. cbn. eexists. split; [reflexivity | split; [reflexivity|]].
      intros. cbn. auto. }
  destruct Hrun as (m' & -> & Hloading & Hnone). auto.
Qed.

Lemma checkSession_without_session_witness :
  let a := Scenario.app "" in
  let m' := snd (@checkSession Pg.Db Pg.environment (PgSession.environment None)
                   (Scenario.machine a [])) in
  calls m' = [] /\ bookmarks (ui m') = bookmarks a /\ loading (ui m') = false.
Proof.
  destruct (@checkSession_without_session Pg.Db Pg.environment
              (PgSession.environment None) (Scenario.machine (Scenario.app "") []))
    as (_ & Hloading & Hnone).
  destruct (Hnone (Resolved None) _ eq_refl) as (Hcalls & _ & _ & Hmirror & _).
  { intros userId H. discriminate. }
  exact (conj Hcalls (conj Hmirror Hloading)).
Defined.

(** ** Adding a bookmark: validation, success, safety *)

(** X16: a submission that fails local validation never reaches the
    store.  For an input that the runtime's [trim] empties, and for an
    input it does not empty but [isValidUrl] rejects, [handleAddBookmark]
    only sets the corresponding error message: no call is issued, the
    environment is not consulted and the mirror is unchanged. *)
Theorem invalid_submission_stays_local (T : JS.Strings) (P : UrlPlatform) (R : Type)
    (E : Environment R) (snap : App) (m : Machine R) :
  let run := handleAddBookmark snap m in
  (JS.trim (urlInput snap) = "" ->
   fst run = Resolved tt
   /\ urlError (ui (snd run)) = "Please enter a URL"
   /\ calls (snd run) = calls m /\ remote (snd run) = remote m
   /\ bookmarks (ui (snd run)) = bookmarks (ui m))
  /\ (JS.truthy (JS.trim (urlInput snap)) = true ->
      isValidUrl (urlInput snap) = false ->
      fst run = Resolved tt
      /\ urlError (ui (snd run))
         = "Please enter a valid URL (must start with http:// or https://)"
      /\ calls (snd run) = calls m /\ remote (snd run) = remote m
      /\ bookmarks (ui (snd run)) = bookmarks (ui m)).
Proof.
  cbv zeta. remember (handleAddBookmark snap m) as run eqn:Hrun.
  unfold handleAddBookmark in Hrun. unfold_monad. split.
  - intros Hblank. rewrite Hblank in Hrun. cbn in Hrun. subst run. cbn. auto.
  - intros Hfilled Hinvalid. rewrite Hfilled, Hinvalid in Hrun. cbn in Hrun.
    subst run. cbn. auto.
Qed.

Lemma invalid_submission_stays_local_witness :
  let blank := Scenario.app "   " in
  let schemeless := Scenario.app "httpbin.org" in
  (urlError (ui (snd (@handleAddBookmark JS.reference RefUrl.platform Pg.Db Pg.environment blank
                        (Scenario.machine blank [])))) = "Please enter a URL"
   /\ calls (snd (@handleAddBookmark JS.reference RefUrl.platform Pg.Db Pg.environment blank
                    (Scenario.machine blank []))) = [])
  /\ (urlError (ui (snd (@handleAddBookmark JS.reference RefUrl.platform Pg.Db Pg.environment schemeless
                           (Scenario.machine schemeless []))))
      = "Please enter a valid URL (must start with http:// or https://)"
      /\ calls (snd (@handleAddBookmark JS.reference RefUrl.platform Pg.Db Pg.environment schemeless
                       (Scenario.machine schemeless []))) = []).
Proof.
  destruct (@invalid_submission_stays_local JS.reference RefUrl.platform Pg.Db Pg.environment
              (Scenario.app "   ") (Scenario.machine (Scenario.app "   ") []))
    as (Hblank & _).
  destruct (@invalid_submission_stays_local JS.reference RefUrl.platform Pg.Db Pg.environment
              (Scenario.app "httpbin.org")
              (Scenario.machine (Scenario.app "httpbin.org") []))
    as (_ & Hinvalid).
  destruct (Hblank eq_refl) as (_ & Hb1 & Hb2 & _).
  destruct (Hinvalid eq_refl eq_refl) as (_ & Hi1 & Hi2 & _).
  exact (conj (conj Hb1 Hb2) (conj Hi1 Hi2)).
Defined.

(** X17: an accepted submission.  For a valid input of a signed-in user
    that the guard does not report as a duplicate (it found nothing, or
    its query failed), when the store accepts the insert the returned row
    is put at the head of the mirror's bookmarks, the input is cleared,
    the modal closed, and no error is shown. *)
Theorem accepted_submission_goes_first (T : JS.Strings) (P : UrlPlatform) (R : Type)
    (E : Environment R) (m : Machine R) (userId : string) :
  JS.truthy (JS.trim (urlInput (ui m))) = true ->
  isValidUrl (urlInput (ui m)) = true ->
  currentUser (ui m) = Some userId ->
  let normalizedUrl := normalizeUrl (urlInput (ui m)) in
  let run := dispatch handleAddBookmark m in
  forall g r1 row r2,
    q_bookmarks_find_id userId normalizedUrl (remote m) = (g, r1) ->
    (forall rowId, g <> Resolved (Some rowId)) ->
    q_bookmarks_insert (submittedBookmark (ui m) userId normalizedUrl) r1
    = (Resolved row, r2) ->
    fst run = Resolved tt
    /\ bookmarks (ui (snd run)) = row :: bookmarks (ui m)
    /\ folders (ui (snd run)) = folders (ui m)
    /\ urlInput (ui (snd run)) = ""
    /\ urlError (ui (snd run)) = ""
    /\ showAddModal (ui (snd run)) = false
    /\ isLoadingMetadata (ui (snd run)) = false.
Proof.
  intros Hfilled Hvalid Huser. cbv zeta. intros g r1 row r2 Hq Hmiss Hinsert.
  remember (dispatch handleAddBookmark m) as run eqn:Hrun.
  unfold dispatch, handleAddBookmark, currentUser_id, submittedBookmark in *.
  rewrite Hfilled, Hvalid, Huser in Hrun. cbn [negb] in Hrun.
  unfold_services. unfold_monad. cbn in Hrun. rewrite Hq in Hrun.
  destruct g as [[rowId|]|e0]; [exfalso; exact (Hmiss rowId eq_refl) | |];
    cbn in Hrun; cbv zeta in Hinsert; rewrite Hinsert in Hrun; cbn in Hrun;
    subst run; cbn; repeat split.
Qed.

Lemma accepted_submission_goes_first_witness :
  let a := Scenario.app "example.org/docs" in
  let run := @dispatch Pg.Db unit
               (@handleAddBookmark JS.reference RefUrl.platform Pg.Db Pg.environment)
               (Scenario.machine a []) in
  List.length (bookmarks (ui (snd run))) = 4
  /\ option_map Bookmark.url (hd_error (bookmarks (ui (snd run))))
     = Some "https://example.org/docs"
  /\ urlInput (ui (snd run)) = "".
Proof.
  destruct (@accepted_submission_goes_first JS.reference RefUrl.platform Pg.Db Pg.environment
              (Scenario.machine (Scenario.app "example.org/docs") []) Scenario.owner
              eq_refl eq_refl eq_refl (Resolved None) _ _ _ eq_refl
              (fun rowId H => eq_ind (Resolved None)
                 (fun o => match o with
                           | Resolved None => True
                           | _ => False
                           end) I _ H)
              eq_refl)
    as (_ & Hmirror & _ & Hinput & _).
  split; [| split].
  - rewrite Hmirror. reflexivity.
  - rewrite Hmirror. reflexivity.
  - exact Hinput.
Defined.

(** X18: submitting a valid URL while no user is signed in issues no call
    at all: reading the user's id throws inside both [try] blocks, each
    failure is logged, and the form shows the generic failure message. *)
Theorem signed_out_submission_issues_no_call (T : JS.Strings) (P : UrlPlatform) (R : Type)
    (E : Environment R) (snap : App) (m : Machine R) :
  JS.truthy (JS.trim (urlInput snap)) = true ->
  isValidUrl (urlInput snap) = true ->
  currentUser snap = None ->
  let run := handleAddBookmark snap m in
  fst run = Resolved tt
  /\ calls (snd run) = calls m
  /\ remote (snd run) = remote m
  /\ urlError (ui (snd run)) = "Failed to add bookmark. Please try again."
  /\ bookmarks (ui (snd run)) = bookmarks (ui m)
  /\ console (snd run) = console m ++ ["Duplicate check error:"; "Add bookmark error:"].
Proof.
  intros Hfilled Hvalid Huser. cbv zeta.
  remember (handleAddBookmark snap m) as run eqn:Hrun.
  unfold handleAddBookmark, currentUser_id in Hrun.
  rewrite Hfilled, Hvalid, Huser in Hrun. cbn [negb] in Hrun.
  unfold_monad. cbn in Hrun. subst run. cbn. rewrite <- app_assoc. repeat split.
Qed.

Lemma signed_out_submission_issues_no_call_witness :
  let a := mkApp None [] [] "all" "" true None false "example.com" "" false in
  let run := @handleAddBookmark JS.reference RefUrl.platform Pg.Db Pg.environment a
               (Scenario.machine a []) in
  calls (snd run) = []
  /\ urlError (ui (snd run)) = "Failed to add bookmark. Please try again.".
Proof.
  destruct (@signed_out_submission_issues_no_call JS.reference RefUrl.platform Pg.Db Pg.environment
              (mkApp None [] [] "all" "" true None false "example.com" "" false)
              (Scenario.machine
                 (mkApp None [] [] "all" "" true None false "example.com" "" false) [])
              eq_refl eq_refl eq_refl) as (_ & Hcalls & _ & Herror & _).
  exact (conj Hcalls Herror).
Defined.

(** X19: whatever the input, the session and the answers of the store,
    [handleAddBookmark] never throws, never leaves the form in its
    loading state, and every create call it issues carries the non-null
    normalised form of an input that [isValidUrl] accepted. *)
Theorem handleAddBookmark_safe (T : JS.Strings) (P : UrlPlatform) (R : Type) (E : Environment R)
    (snap : App) (m : Machine R) :
  let run := handleAddBookmark snap m in
  fst run = Resolved tt
  /\ (isLoadingMetadata (ui m) = false -> isLoadingMetadata (ui (snd run)) = false)
  /\ (forall p, In (BookmarksCreate p) (calls (snd run)) ->
        In (BookmarksCreate p) (calls m)
        \/ (isValidUrl (urlInput snap) = true
            /\ exists u, normalizeUrl (urlInput snap) = Some u
                         /\ Bookmark.new_url p = Some u)).
Proof.
  cbv zeta. remember (handleAddBookmark snap m) as run eqn:Hrun.
  unfold handleAddBookmark, currentUser_id in Hrun. unfold_services. unfold_monad.
  destruct (JS.truthy (JS.trim (urlInput snap))); cbn in Hrun;
    [| subst run; cbn; auto].
  destruct (isValidUrl (urlInput snap)) eqn:Hvalid; cbn in Hrun;
    [| subst run; cbn; auto].
  destruct (isValidUrl_normalizeUrl _ Hvalid) as (u & Hu).
  assert (Hcreate : forall p l,
             In (BookmarksCreate p) l ->
             (forall c, In c l ->
                In c (calls m)
                \/ isCreateCall c = false
                \/ exists userId,
                     c = BookmarksCreate
                           (submittedBookmark snap userId (normalizeUrl (urlInput snap)))) ->
             In (BookmarksCreate p) (calls m)
             \/ (true = true
                 /\ exists u0, normalizeUrl (urlInput snap) = Some u0
                               /\ Bookmark.new_url p = Some u0)).
  { intros p l Hin Hl. destruct (Hl _ Hin) as [H | [H | (userId & H)]];
      [auto | discriminate |].
    inversion H; subst. right. split; [reflexivity|]. exists u. auto. }
  assert (Hlog : forall c userId k,
             isCreateCall k = false ->
             In c ((calls m ++ [k]) ++
                   [BookmarksCreate
                      (submittedBookmark snap userId (normalizeUrl (urlInput snap)))]) ->
             In c (calls m)
             \/ isCreateCall c = false
             \/ exists userId0,
                  c = BookmarksCreate
                        (submittedBookmark snap userId0 (normalizeUrl (urlInput snap)))).
  { intros c userId k Hk Hin. rewrite !in_app_iff in Hin. simpl in Hin.
    destruct Hin as [[Hin | [<- | []]] | [<- | []]]; eauto. }
  unfold submittedBookmark in Hlog. cbv zeta in Hlog.
  destruct (currentUser snap) as [userId|]; cbn in Hrun.
  - destruct (q_bookmarks_find_id userId (normalizeUrl (urlInput snap)) (remote m))
      as [[[rowId|]|e] r1]; cbn in Hrun.
    + subst run. cbn. split; [reflexivity | split; [auto|]].
      intros p Hin. apply (Hcreate p _ Hin). intros c Hc.
      rewrite in_app_iff in Hc. simpl in Hc.
      destruct Hc as [Hc | [<- | []]]; auto.
    + destruct (q_bookmarks_insert _ r1) as [[row|e] r2]; cbn in Hrun.
      * subst run. cbn. split; [reflexivity | split; [auto|]].
        intros p Hin. apply (Hcreate p _ Hin). intros c Hc.
        refine (Hlog c userId _ _ Hc); reflexivity.
      * destruct (messageIncludes e "duplicate"); subst run; cbn;
          (split; [reflexivity | split; [auto|]]);
          intros p Hin; apply (Hcreate p _ Hin); intros c Hc;
          refine (Hlog c userId _ _ Hc); reflexivity.
    + destruct (q_bookmarks_insert _ r1) as [[row|e'] r2]; cbn in Hrun.
      * subst run. cbn. split; [reflexivity | split; [auto|]].
        intros p Hin. apply (Hcreate p _ Hin). intros c Hc.
        refine (Hlog c userId _ _ Hc); reflexivity.
      * destruct (messageIncludes e' "duplicate"); subst run; cbn;
          (split; [reflexivity | split; [auto|]]);
          intros p Hin; apply (Hcreate p _ Hin); intros c Hc;
          refine (Hlog c userId _ _ Hc); reflexivity.
  - subst run. cbn. auto.
Qed.

Lemma handleAddBookmark_safe_witness :
  let a := Scenario.app "example.org/docs" in
  let run := @handleAddBookmark JS.reference RefUrl.platform Pg.Db Pg.environment a
               (Scenario.machine a []) in
  isLoadingMetadata (ui (snd run)) = false
  /\ forall p, In (BookmarksCreate p) (calls (snd run)) ->
               Bookmark.new_url p = Some "https://example.org/docs".
Proof.
  destruct (@handleAddBookmark_safe JS.reference RefUrl.platform Pg.Db Pg.environment
              (Scenario.app "example.org/docs")
              (Scenario.machine (Scenario.app "example.org/docs") []))
    as (_ & Hloading & Hcreate).
  split; [exact (Hloading eq_refl)|].
  intros p Hin. destruct (Hcreate p Hin) as [[] | (_ & u & Hu & Hp)].
  rewrite Hp. symmetry. exact Hu.
Defined.

(** ** Updates, folder deletion and load: the other paths *)

(** X20: when the store accepts an update, [handleUpdateBookmark] puts
    the row the store returned (not a local merge of the fields) at every
    position of the mirror that held a bookmark with that id, and leaves
    every other bookmark, the order, the length and the folders as they
    were. *)
Theorem accepted_update_replaces_in_place (R : Type) (E : Environment R)
    (m : Machine R) (bookmarkId : string) (updates : Bookmark.updates)
    (row : Bookmark.t) (r' : R) :
  q_bookmarks_update bookmarkId updates (remote m) = (Resolved row, r') ->
  let m' := snd (dispatch (fun snap => handleUpdateBookmark snap bookmarkId updates) m) in
  List.length (bookmarks (ui m')) = List.length (bookmarks (ui m))
  /\ (forall i b, nth_error (bookmarks (ui m)) i = Some b ->
        nth_error (bookmarks (ui m')) i
        = Some (if String.eqb (Bookmark.id b) bookmarkId then row else b))
  /\ folders (ui m') = folders (ui m)
  /\ alerts m' = alerts m.
Proof.
  intros Hq. cbv zeta. unfold dispatch.
  rewrite (handleUpdateBookmark_resolved (ui m) m _ _ Hq). cbn.
  split; [apply length_map | split; [| auto]].
  intros i b Hi. exact (nth_error_map_some _ _ _ Hi).
Qed.

Lemma accepted_update_replaces_in_place_witness :
  let a := Scenario.app "" in
  let u := Bookmark.mkUpdates (Some "Hub") None None None None None in
  let m' := snd (@dispatch Pg.Db unit
                   (fun snap => @handleUpdateBookmark Pg.Db Pg.environment snap "b-1" u)
                   (Scenario.machine a [])) in
  map Bookmark.title (bookmarks (ui m')) = ["Rocq"; "Example"; "Hub"]
  /\ List.length (bookmarks (ui m')) = 3.
Proof.
  destruct (@accepted_update_replaces_in_place Pg.Db Pg.environment
              (Scenario.machine (Scenario.app "") []) "b-1"
              (Bookmark.mkUpdates (Some "Hub") None None None None None) _ _ eq_refl)
    as (Hlength & _).
  split; [reflexivity | exact Hlength].
Defined.

Section DeleteFolderPaths.
Context {R : Type} {E : Environment R}.

(** [handleDeleteFolder] past its default-folder test and an accepted
    confirmation, in terms of the loop and the folder delete. *)
Lemma handleDeleteFolder_confirmed (snap : App) (folderId : string) (m : Machine R)
    (r1 : R) :
  match find (fun f => String.eqb (Folder.id f) folderId) (folders snap) with
  | Some f => Folder.is_default f
  | None => false
  end = false ->
  window_confirm confirmDeleteFolder (remote m) = (true, r1) ->
  handleDeleteFolder snap folderId m
  = match unfileLoop snap folderId (answered m r1) with
    | (Resolved _, m2) =>
        match q_folders_delete folderId (remote m2) with
        | (Resolved _, r3) =>
            (Resolved tt,
             mkMachine
               (mkApp (currentUser (ui m2))
                  (map (fun b => if strictEqOpt (Bookmark.folder_id b) folderId
                                 then Bookmark.with_folder_id b None else b)
                       (bookmarks snap))
                  (filter (fun f => negb (String.eqb (Folder.id f) folderId))
                          (folders snap))
                  (if String.eqb (selectedFolder snap) folderId then "all"
                   else selectedFolder (ui m2))
                  (filterQuery (ui m2)) (showAddModal (ui m2)) (shareModal (ui m2))
                  (loading (ui m2)) (urlInput (ui m2)) (urlError (ui m2))
                  (isLoadingMetadata (ui m2)))
               r3 (calls m2 ++ [FoldersDelete folderId]) (alerts m2) (console m2))
        | (Rejected e, r3) =>
            (Resolved tt,
             mkMachine (ui m2) r3 (calls m2 ++ [FoldersDelete folderId])
                       (alerts m2 ++ ["Failed to delete folder"])
                       (console m2 ++ ["Delete folder error:"]))
        end
    | (Rejected e, m2) =>
        (Resolved tt,
         mkMachine (ui m2) (remote m2) (calls m2)
                   (alerts m2 ++ ["Failed to delete folder"])
                   (console m2 ++ ["Delete folder error:"]))
    end.
Proof.
  intros Hnot Hyes. unfold handleDeleteFolder, unfileLoop, answered.
  rewrite Hnot. unfold bind at 1. unfold ask at 1. rewrite Hyes. cbn [negb].
  unfold try_catch. unfold bind at 1.
  destruct (forEach _ _ _) as [[[]|e] m2]; [| reflexivity].
  unfold_services. unfold_monad.
  destruct (q_folders_delete folderId (remote m2)) as [[[]|e] r3]; [| reflexivity].
  destruct (String.eqb (selectedFolder snap) folderId); reflexivity.
Qed.

End DeleteFolderPaths.

(** X21: a folder delete that does not go through leaves the React
    state as it was.  When the user declines the confirmation nothing is
    called; when one of the updates of the folder's bookmarks or the
    folder delete itself is rejected, the user is alerted and neither the
    folders nor the bookmarks of the mirror change. *)
Theorem folder_delete_not_done_keeps_mirror (R : Type) (E : Environment R)
    (snap : App) (folderId : string) (m : Machine R) :
  match find (fun f => String.eqb (Folder.id f) folderId) (folders snap) with
  | Some f => Folder.is_default f
  | None => false
  end = false ->
  (forall r1, window_confirm confirmDeleteFolder (remote m) = (false, r1) ->
     handleDeleteFolder snap folderId m = (Resolved tt, answered m r1))
  /\ (forall r1 e m2,
        window_confirm confirmDeleteFolder (remote m) = (true, r1) ->
        unfileLoop snap folderId (answered m r1) = (Rejected e, m2) ->
        ui (snd (handleDeleteFolder snap folderId m)) = ui m
        /\ alerts (snd (handleDeleteFolder snap folderId m))
           = alerts m ++ ["Failed to delete folder"]
        /\ filter isFoldersDeleteCall (calls (snd (handleDeleteFolder snap folderId m)))
           = filter isFoldersDeleteCall (calls m2))
  /\ (forall r1 m2 e r3,
        window_confirm confirmDeleteFolder (remote m) = (true, r1) ->
        unfileLoop snap folderId (answered m r1) = (Resolved tt, m2) ->
        q_folders_delete folderId (remote m2) = (Rejected e, r3) ->
        ui (snd (handleDeleteFolder snap folderId m)) = ui m
        /\ alerts (snd (handleDeleteFolder snap folderId m))
           = alerts m ++ ["Failed to delete folder"]).
Proof.
  intros Hnot. split; [| split].
  - intros r1 Hno. unfold handleDeleteFolder. rewrite Hnot.
    unfold bind, ask. rewrite Hno. reflexivity.
  - intros r1 e m2 Hyes Hloop.
    rewrite (handleDeleteFolder_confirmed snap folderId m Hnot Hyes), Hloop.
    destruct (forEach_update_frame _ _ _ Hloop) as (Hui & Halerts & _).
    unfold answered in Hui, Halerts. cbn [ui alerts snd calls] in *.
    rewrite Hui, Halerts. auto.
  - intros r1 m2 e r3 Hyes Hloop Hdelete.
    rewrite (handleDeleteFolder_confirmed snap folderId m Hnot Hyes), Hloop, Hdelete.
    destruct (forEach_update_frame _ _ _ Hloop) as (Hui & Halerts & _).
    unfold answered in Hui, Halerts. cbn [ui alerts snd calls] in *.
    rewrite Hui, Halerts. auto.
Qed.

Lemma folder_delete_not_done_keeps_mirror_witness :
  let a := Scenario.app "" in
  let m' := snd (@handleDeleteFolder Pg.Db Pg.environment a "f-2"
                   (Scenario.machine a [None; Some Pg.networkError])) in
  ui m' = a
  /\ alerts m' = ["Failed to delete folder"]
  /\ map Bookmark.folder_id (Pg.bookmarks_tbl (remote m')) = [Some "f-2"; None; None].
Proof.
  destruct (@folder_delete_not_done_keeps_mirror Pg.Db Pg.environment (Scenario.app "")
              "f-2" (Scenario.machine (Scenario.app "") [None; Some Pg.networkError])
              eq_refl) as (_ & Hloop & _).
  destruct (Hloop _ _ _ eq_refl eq_refl) as (Hui & Halerts & _).
  exact (conj Hui (conj Halerts eq_refl)).
Defined.

(** X22: after a folder delete that went through, the selection goes
    back to the [all] view exactly when the deleted folder was the
    selected one (any other selection is kept), and the search box keeps
    its text.  When the deleted folder was selected, the listing is then
    the search of the whole mirror under that text, without a folder
    rule: every bookmark of the mirror when the text is blank. *)
Theorem folder_delete_resets_selection (T : JS.Strings) (R : Type) (E : Environment R)
    (m : Machine R) (folderId : string) (r1 r3 : R) (m2 : Machine R) :
  match find (fun f => String.eqb (Folder.id f) folderId) (folders (ui m)) with
  | Some f => Folder.is_default f
  | None => false
  end = false ->
  window_confirm confirmDeleteFolder (remote m) = (true, r1) ->
  unfileLoop (ui m) folderId (answered m r1) = (Resolved tt, m2) ->
  q_folders_delete folderId (remote m2) = (Resolved tt, r3) ->
  let a' := ui (snd (dispatch (fun snap => handleDeleteFolder snap folderId) m)) in
  selectedFolder a'
  = (if String.eqb (selectedFolder (ui m)) folderId then "all" else selectedFolder (ui m))
  /\ filterQuery a' = filterQuery (ui m)
  /\ (selectedFolder (ui m) = folderId ->
      filteredBookmarks (bookmarks a') (selectedFolder a') (filterQuery a') (folders a')
      = filter (fun b => if JS.truthy (JS.trim (filterQuery (ui m)))
                         then matchesQuery (JS.toLowerCase (filterQuery (ui m))) b
                         else true)
               (bookmarks a')
      /\ (JS.trim (filterQuery (ui m)) = "" ->
          filteredBookmarks (bookmarks a') (selectedFolder a') (filterQuery a')
                            (folders a')
          = bookmarks a')).
Proof.
  intros Hnot Hyes Hloop Hdelete. cbv zeta. unfold dispatch.
  rewrite (handleDeleteFolder_confirmed (ui m) folderId m Hnot Hyes), Hloop, Hdelete.
  destruct (forEach_update_frame _ _ _ Hloop) as (Hui & _).
  unfold answered in Hui. cbn [ui snd selectedFolder bookmarks folders filterQuery] in *.
  rewrite Hui. split; [reflexivity | split; [reflexivity|]].
  intros Hselected. rewrite Hselected, String.eqb_refl.
  assert (Hlisting :
            forall bs fs,
              filteredBookmarks bs "all" (filterQuery (ui m)) fs
              = filter (fun b => if JS.truthy (JS.trim (filterQuery (ui m)))
                                 then matchesQuery (JS.toLowerCase (filterQuery (ui m))) b
                                 else true) bs).
  { intros bs fs. rewrite filteredBookmarks_filter. apply filter_ext. intros b.
    unfold keeps, isAllView. cbn. now rewrite orb_true_r. }
  rewrite Hlisting. split; [reflexivity|].
  intros Hblank. rewrite Hblank. cbn. apply filter_all.
Qed.

Lemma folder_delete_resets_selection_witness :
  let a := mkApp (Some Scenario.owner) [Scenario.shared; Scenario.example; Scenario.github]
                 [Scenario.allBookmarks; Scenario.work] "f-2" "git" false None false
                 "" "" false in
  let a' := ui (snd (@dispatch Pg.Db unit
                       (fun snap => @handleDeleteFolder Pg.Db Pg.environment snap "f-2")
                       (Scenario.machine a []))) in
  selectedFolder a' = "all"
  /\ List.length (bookmarks a') = 3
  /\ @filteredBookmarks JS.reference (bookmarks a') (selectedFolder a') (filterQuery a')
                        (folders a')
     = [Bookmark.with_folder_id Scenario.github None].
Proof.
  destruct (@folder_delete_resets_selection JS.reference Pg.Db Pg.environment
              (Scenario.machine
                 (mkApp (Some Scenario.owner)
                        [Scenario.shared; Scenario.example; Scenario.github]
                        [Scenario.allBookmarks; Scenario.work] "f-2" "git" false None
                        false "" "" false) [])
              "f-2" _ _ _ eq_refl eq_refl eq_refl eq_refl)
    as (Hselection & _ & Hlisting).
  split; [exact Hselection | split; [reflexivity|]].
  rewrite (proj1 (Hlisting eq_refl)). reflexivity.
Defined.

(** X23: a load whose queries all succeed fills the mirror with exactly
    what the store returned: the fetched folders (or, for an owner who has
    none, the single default folder just created, requested under the name
    All Bookmarks with the default flag) and the fetched bookmarks, in the
    store's order, with no alert. *)
Theorem successful_load_fills_mirror (R : Type) (E : Environment R)
    (userId : string) (m : Machine R) (fs : list Folder.t) (bs : list Bookmark.t)
    (r1 r2 : R) :
  folderStep userId (remote m) = (Resolved fs, r1) ->
  q_bookmarks_select userId r1 = (Resolved bs, r2) ->
  let m' := snd (loadUserData userId m) in
  folders (ui m') = fs
  /\ bookmarks (ui m') = bs
  /\ loading (ui m') = false
  /\ alerts m' = alerts m
  /\ (forall r0, q_folders_select userId (remote m) = (Resolved [], r0) ->
        calls m' = calls m ++ [FoldersGetAll userId;
                               FoldersCreate {| Folder.new_user_id := userId;
                                                Folder.new_name := "All Bookmarks";
                                                Folder.new_is_default := true |};
                               BookmarksGetAll userId]).
Proof.
  intros Hstep Hbs. cbv zeta. remember (loadUserData userId m) as run eqn:Hrun.
  unfold loadUserData in Hrun. unfold folderStep in Hstep.
  unfold_services. unfold_monad. cbn in Hrun.
  destruct (q_folders_select userId (remote m)) as [[[|f0 fs0]|e] r0]; cbn in Hrun.
  - destruct (q_folders_insert _ r0) as [[d|e] r0']; cbn in Hrun; [|discriminate].
    inversion Hstep; subst fs r1. rewrite Hbs in Hrun. cbn in Hrun. subst run. cbn.
    repeat split. intros r3 _. rewrite <- !app_assoc. reflexivity.
  - inversion Hstep; subst fs r1. rewrite Hbs in Hrun. cbn in Hrun. subst run. cbn.
    repeat split. intros r3 Hempty. discriminate.
  - discriminate.
Qed.

Lemma successful_load_fills_mirror_witness :
  let m' := snd (@loadUserData Pg.Db Pg.environment Scenario.owner
                   (mkMachine initialApp (Scenario.db []) [] [] [])) in
  folders (ui m') = [Scenario.allBookmarks; Scenario.work]
  /\ bookmarks (ui m') = [Scenario.shared; Scenario.example; Scenario.github]
  /\ loading (ui m') = false.
Proof.
  destruct (@successful_load_fills_mirror Pg.Db Pg.environment Scenario.owner
              (mkMachine initialApp (Scenario.db []) [] [] []) _ _ _ _ eq_refl eq_refl)
    as (Hfolders & Hbookmarks & Hloading & _).
  exact (conj Hfolders (conj Hbookmarks Hloading)).
Defined.

(** ** The evaluator: letter case and composition *)

Lemma filter_idempotent {A} (p : A -> bool) (l : list A) :
  filter p (filter p l) = filter p l.
Proof.
  rewrite filter_twice. apply filter_ext. intros a. apply andb_diag.
Qed.

(** X24: the search ignores the letter case of the query: two queries
    with the same lower-case form (the runtime's, over all of Unicode)
    give the same listing, for every mirror, selection and folder list. *)
Theorem search_ignores_query_case (T : JS.Strings) (L : JS.Standard T)
    (bs : list Bookmark.t) (sel q q' : string) (fs : list Folder.t) :
  JS.toLowerCase q = JS.toLowerCase q' ->
  filteredBookmarks bs sel q fs = filteredBookmarks bs sel q' fs.
Proof.
  intros Hcase. rewrite !filteredBookmarks_filter. apply filter_ext. intros b.
  unfold keeps.
  rewrite <- (JS.toLowerCase_blank q), <- (JS.toLowerCase_blank q'), Hcase.
  reflexivity.
Qed.

Lemma search_ignores_query_case_witness :
  @filteredBookmarks JS.reference [Scenario.github; Scenario.example] "all" "GitHub"
                     [Scenario.allBookmarks; Scenario.work]
  = @filteredBookmarks JS.reference [Scenario.github; Scenario.example] "all" "gITHUB"
                       [Scenario.allBookmarks; Scenario.work].
Proof.
  exact (@search_ignores_query_case JS.reference reference_standard
           [Scenario.github; Scenario.example] "all"
           "GitHub" "gITHUB" [Scenario.allBookmarks; Scenario.work] eq_refl).
Defined.

(** X25: filtering composes.  Evaluating the listing again on its own
    result changes nothing, and a search inside a folder is the search,
    in the [all] view, of that folder's listing. *)
Theorem filteredBookmarks_composes (T : JS.Strings) (L : JS.Standard T)
    (bs : list Bookmark.t) (sel q : string) (fs : list Folder.t) :
  filteredBookmarks (filteredBookmarks bs sel q fs) sel q fs
  = filteredBookmarks bs sel q fs
  /\ filteredBookmarks bs sel q fs
     = filteredBookmarks (filteredBookmarks bs sel "" fs) "all" q fs.
Proof.
  split.
  - rewrite !filteredBookmarks_filter. apply filter_idempotent.
  - rewrite !filteredBookmarks_filter, filter_twice. apply filter_ext. intros b.
    unfold keeps. rewrite trim_empty. cbn [JS.truthy].
    assert (Hall : isAllView fs "all" = true)
      by (unfold isAllView; cbn; apply orb_true_r).
    rewrite Hall, andb_true_r. reflexivity.
Qed.

Lemma filteredBookmarks_composes_witness :
  let bs := [Scenario.shared; Scenario.example; Scenario.github] in
  let fs := [Scenario.allBookmarks; Scenario.work] in
  @filteredBookmarks JS.reference bs "f-2" "git" fs
  = @filteredBookmarks JS.reference (@filteredBookmarks JS.reference bs "f-2" "" fs)
                       "all" "git" fs.
Proof.
  exact (proj2 (@filteredBookmarks_composes JS.reference reference_standard
                  [Scenario.shared; Scenario.example; Scenario.github] "f-2" "git"
                  [Scenario.allBookmarks; Scenario.work])).
Defined.

(** ** Validation and normalisation together; a new bookmark is visible *)

(** X26: [isValidUrl] and [normalizeUrl] agree on what parses.  Whenever
    [isValidUrl] accepts an input, [normalizeUrl] returns, non-null, the
    [href] of a URL whose protocol is [http:] or [https:]; and whenever
    [normalizeUrl] returns null, [isValidUrl] rejects. *)
Theorem valid_url_normalizes (P : UrlPlatform) (s : string) :
  (isValidUrl s = true ->
   exists url, normalizeUrl s = Some (href url)
               /\ (protocol url = "http:" \/ protocol url = "https:"))
  /\ (normalizeUrl s = None -> isValidUrl s = false).
Proof.
  unfold isValidUrl, normalizeUrl.
  destruct (URL_new _) as [url|]; split; intros H; try discriminate; try reflexivity.
  exists url. split; [reflexivity|].
  apply orb_true_iff in H. destruct H as [H|H]; apply String.eqb_eq in H; auto.
Qed.

Lemma valid_url_normalizes_witness :
  (exists url, @normalizeUrl RefUrl.platform "example.com" = Some (href url)
               /\ (protocol url = "http:" \/ protocol url = "https:"))
  /\ @isValidUrl RefUrl.platform "https:// example.com" = false.
Proof.
  split.
  - exact (proj1 (@valid_url_normalizes RefUrl.platform "example.com") eq_refl).
  - exact (proj2 (@valid_url_normalizes RefUrl.platform "https:// example.com") eq_refl).
Defined.

(** X27: a bookmark that has just been added is listed in the view it was
    added from.  Under the conditions of an accepted submission, the store
    returning the row with the folder it was sent, the new bookmark is in
    the listing of the current selection (with an empty search box),
    whether the selection is the [all] view, the default folder or any
    other folder. *)
Theorem added_bookmark_is_listed (T : JS.Strings) (L : JS.Standard T)
    (P : UrlPlatform) (R : Type) (E : Environment R) (m : Machine R) (userId : string) :
  JS.truthy (JS.trim (urlInput (ui m))) = true ->
  isValidUrl (urlInput (ui m)) = true ->
  currentUser (ui m) = Some userId ->
  let normalizedUrl := normalizeUrl (urlInput (ui m)) in
  let a' := ui (snd (dispatch handleAddBookmark m)) in
  forall g r1 row r2,
    q_bookmarks_find_id userId normalizedUrl (remote m) = (g, r1) ->
    (forall rowId, g <> Resolved (Some rowId)) ->
    q_bookmarks_insert (submittedBookmark (ui m) userId normalizedUrl) r1
    = (Resolved row, r2) ->
    Bookmark.folder_id row
    = Bookmark.new_folder_id (submittedBookmark (ui m) userId normalizedUrl) ->
    In row (filteredBookmarks (bookmarks a') (selectedFolder a') "" (folders a')).
Proof.
  intros Hfilled Hvalid Huser. cbv zeta. intros g r1 row r2 Hq Hmiss Hinsert Hfolder.
  remember (dispatch handleAddBookmark m) as run eqn:Hrun.
  unfold dispatch, handleAddBookmark, currentUser_id, submittedBookmark in *.
  rewrite Hfilled, Hvalid, Huser in Hrun. cbn [negb] in Hrun.
  unfold_services. unfold_monad. cbn in Hrun. rewrite Hq in Hrun.
  cbv zeta in Hinsert, Hfolder. cbn [Bookmark.new_folder_id] in Hfolder.
  assert (Hlisted : In row (filteredBookmarks (row :: bookmarks (ui m))
                              (selectedFolder (ui m)) "" (folders (ui m)))).
  { rewrite filteredBookmarks_filter. apply filter_In. split; [now left|].
    unfold keeps. rewrite trim_empty. cbn [JS.truthy]. rewrite andb_true_r.
    destruct (isAllView (folders (ui m)) (selectedFolder (ui m))) eqn:Hall;
      [reflexivity|].
    rewrite Hfolder. unfold isAllView in Hall.
    destruct (String.eqb (selectedFolder (ui m)) "all").
    - rewrite orb_true_r in Hall. discriminate.
    - simpl. apply String.eqb_refl. }
  destruct g as [[rowId|]|e0]; [exfalso; exact (Hmiss rowId eq_refl) | |];
    cbn in Hrun; rewrite Hinsert in Hrun; cbn in Hrun; subst run; exact Hlisted.
Qed.

Lemma added_bookmark_is_listed_witness :
  let a := mkApp (Some Scenario.owner) [Scenario.shared; Scenario.example; Scenario.github]
                 [Scenario.allBookmarks; Scenario.work] "f-2" "" true None false
                 "example.org/docs" "" false in
  let a' := ui (snd (@dispatch Pg.Db unit
                       (@handleAddBookmark JS.reference RefUrl.platform Pg.Db Pg.environment)
                       (Scenario.machine a []))) in
  exists row, Bookmark.url row = "https://example.org/docs"
              /\ Bookmark.folder_id row = Some "f-2"
              /\ In row (@filteredBookmarks JS.reference (bookmarks a')
                                             (selectedFolder a') "" (folders a')).
Proof.
  eexists. split; [| split];
    [ | | exact (@added_bookmark_is_listed JS.reference reference_standard
                   RefUrl.platform Pg.Db Pg.environment
                   (Scenario.machine
                      (mkApp (Some Scenario.owner)
                             [Scenario.shared; Scenario.example; Scenario.github]
                             [Scenario.allBookmarks; Scenario.work] "f-2" "" true None
                             false "example.org/docs" "" false) [])
                   Scenario.owner eq_refl eq_refl eq_refl (Resolved None) _ _ _ eq_refl
                   (fun rowId H => eq_ind (Resolved None)
                      (fun o => match o with
                                | Resolved None => True
                                | _ => False
                                end) I _ H)
                   eq_refl eq_refl) ];
    reflexivity.
Defined.
